(** * chat-sdk: the theme engine and the configuration poller of [ChatBot.js]

    A shallow embedding of the colour arithmetic ([getThemeColors] and
    the functions it calls) and of the configuration refresh cycle
    ([hasConfigurationChanged], [applyNewConfiguration], [init],
    [destroy]) of [src/src/ChatBot.js], with the properties the
    specification states about them. *)

From Stdlib Require Import ZArith List String Ascii Bool Lia Floats.
Import ListNotations.

Local Open Scope string_scope.
Local Open Scope Z_scope.

Set Warnings "-inexact-float".

(** ** The JavaScript primitives the widget relies on *)

Module JS.

(** Strings are sequences of code units below 256 (Rocq's [ascii]). *)

Definition code (c : ascii) : Z := Z.of_N (N_of_ascii c).

(** White space and line terminators of ECMA-262 in that range. *)
Definition isWhiteSpace (c : ascii) : bool :=
  let n := code c in
  ((9 <=? n) && (n <=? 13)) || (n =? 32) || (n =? 160).

Definition lowerChar (c : ascii) : ascii :=
  let n := code c in
  if ((65 <=? n) && (n <=? 90))
     || ((192 <=? n) && (n <=? 222) && negb (n =? 215))
  then ascii_of_N (Z.to_N (n + 32)) else c.

(** [s.toLowerCase()] *)
Fixpoint toLowerCase (s : string) : string :=
  match s with
  | EmptyString => EmptyString
  | String c r => String (lowerChar c) (toLowerCase r)
  end.

Fixpoint trimStart (s : string) : string :=
  match s with
  | EmptyString => EmptyString
  | String c r => if isWhiteSpace c then trimStart r else s
  end.

Fixpoint trimEnd (s : string) : string :=
  match s with
  | EmptyString => EmptyString
  | String c r =>
      match trimEnd r with
      | EmptyString => if isWhiteSpace c then EmptyString else String c EmptyString
      | t => String c t
      end
  end.

(** [s.trim()] *)
Definition trim (s : string) : string := trimEnd (trimStart s).

(** [s.startsWith(p)] *)
Definition startsWith (s p : string) : bool := String.prefix p s.

(** [s.slice(1)] *)
Definition slice1 (s : string) : string :=
  match s with
  | EmptyString => EmptyString
  | String _ r => r
  end.

(** [s.substr(start, len)] for non-negative arguments. *)
Definition substr (s : string) (start len : nat) : string :=
  String.substring start len s.

(** [s.replace(c, '')] with a one-character pattern: the first
    occurrence only. *)
Fixpoint removeFirst (c : ascii) (s : string) : string :=
  match s with
  | EmptyString => EmptyString
  | String d r => if Ascii.eqb d c then r else String d (removeFirst c r)
  end.

Fixpoint replicate (n : nat) (c : ascii) : string :=
  match n with
  | O => EmptyString
  | S k => String c (replicate k c)
  end.

(** [s.padStart(n, c)] with a one-character filler. *)
Definition padStart (s : string) (n : nat) (c : ascii) : string :=
  replicate (n - String.length s) c ++ s.

(** [arr.includes(s)] on an array of strings. *)
Definition includes (arr : list string) (s : string) : bool :=
  existsb (String.eqb s) arr.

(** [!s] for a string that may be absent. *)
Definition falsy (o : option string) : bool :=
  match o with
  | None => true
  | Some s => String.eqb s EmptyString
  end.

(** [a || b] where [a] is an optional string and [b] a string. *)
Definition orElse (o : option string) (d : string) : string :=
  match o with
  | None => d
  | Some s => if String.eqb s EmptyString then d else s
  end.

(** [a === b] on strings that may be absent. *)
Definition sameOpt (a b : option string) : bool :=
  match a, b with
  | None, None => true
  | Some x, Some y => String.eqb x y
  | _, _ => false
  end.

(** *** Numbers

    A Number is an IEEE 754 binary64 value.  Integers that a double
    holds exactly (magnitude at most 2^53) are carried as [Int]; every
    other value (fractions, NaN, the infinities, negative zero, large
    values) is a primitive float.  An arithmetic operation on two
    [Int]s whose exact result is again such an integer yields it
    directly, which is what correct rounding gives; any other case is
    computed on the primitive floats. *)

Inductive Number : Type :=
| Int (z : Z)
| Flt (f : float).

Definition safe (z : Z) : bool := (Z.abs z <=? 9007199254740992).

(** The double nearest to an integer. *)
Definition Z2f (z : Z) : float := SF2Prim (binary_normalize prec emax z 0 false).

Definition toFloat (x : Number) : float :=
  match x with
  | Int z => Z2f z
  | Flt f => f
  end.

(** The canonical representation of a double. *)
Definition ofFloat (f : float) : Number :=
  match Prim2SF f with
  | S754_zero false => Int 0
  | S754_finite s m e =>
      if 0 <=? e then
        let z := Z.pos m * 2 ^ e in
        if safe z then Int (if s then - z else z) else Flt f
      else
        let d := 2 ^ (- e) in
        if Z.pos m mod d =? 0
        then Int (if s then - (Z.pos m / d) else Z.pos m / d)
        else Flt f
  | _ => Flt f
  end.

Definition ofZ (z : Z) : Number :=
  if safe z then Int z else ofFloat (Z2f z).

Definition NaN : Number := Flt nan.

Definition isNaN (x : Number) : bool :=
  match x with
  | Int _ => false
  | Flt f => is_nan f
  end.

Definition add (a b : Number) : Number :=
  match a, b with
  | Int x, Int y =>
      if safe (x + y) then Int (x + y) else ofFloat (Z2f x + Z2f y)
  | _, _ => ofFloat (toFloat a + toFloat b)
  end.

Definition sub (a b : Number) : Number :=
  match a, b with
  | Int x, Int y =>
      if safe (x - y) then Int (x - y) else ofFloat (Z2f x - Z2f y)
  | _, _ => ofFloat (toFloat a - toFloat b)
  end.

(** A zero product of a negative factor is the negative zero, which
    the float multiplication produces. *)
Definition mul (a b : Number) : Number :=
  match a, b with
  | Int x, Int y =>
      if safe (x * y) && (negb (x * y =? 0) || ((0 <=? x) && (0 <=? y)))
      then Int (x * y) else ofFloat (Z2f x * Z2f y)
  | _, _ => ofFloat (toFloat a * toFloat b)
  end.

Definition div (a b : Number) : Number :=
  match a, b with
  | Int x, Int y =>
      if negb (y =? 0) && (x mod y =? 0) && (negb (x =? 0) || (0 <? y))
      then Int (x / y) else ofFloat (Z2f x / Z2f y)
  | _, _ => ofFloat (toFloat a / toFloat b)
  end.

(** [a < b] *)
Definition lt (a b : Number) : bool :=
  match a, b with
  | Int x, Int y => x <? y
  | _, _ => PrimFloat.ltb (toFloat a) (toFloat b)
  end.

(** [a > b] *)
Definition gt (a b : Number) : bool := lt b a.

(** [a === b] on numbers. *)
Definition strictEq (a b : Number) : bool :=
  match a, b with
  | Int x, Int y => x =? y
  | _, _ => PrimFloat.eqb (toFloat a) (toFloat b)
  end.

Definition isNegZero (x : Number) : bool :=
  match x with
  | Int _ => false
  | Flt f => is_zero f && get_sign f
  end.

Definition max2 (a b : Number) : Number :=
  if isNaN a then a else if isNaN b then b
  else if lt a b then b else if lt b a then a
  else if isNegZero a then b else a.

Definition min2 (a b : Number) : Number :=
  if isNaN a then a else if isNaN b then b
  else if lt a b then a else if lt b a then b
  else if isNegZero a then a else b.

(** [Math.max(a, b, c)] and [Math.min(a, b, c)] *)
Definition Math_max (a b c : Number) : Number := max2 (max2 a b) c.
Definition Math_min (a b c : Number) : Number := min2 (min2 a b) c.

(** [Math.round(x)]: the integer nearest to [x], ties towards
    +Infinity; a result of zero keeps the sign of a negative [x]. *)
Definition Math_round (x : Number) : Number :=
  match x with
  | Int z => Int z
  | Flt f =>
      match Prim2SF f with
      | S754_finite s m e =>
          if 0 <=? e then ofFloat f
          else
            let d := 2 ^ (- e) in
            let sm := if s then Z.neg m else Z.pos m in
            let r := (2 * sm + d) / (2 * d) in
            if (r =? 0) && s then Flt neg_zero else ofZ r
      | _ => ofFloat f
      end
  end.

(** [Math.pow(x, 2)] *)
Definition Math_pow2 (x : Number) : Number := mul x x.

(** [Math.sqrt(x)] *)
Definition Math_sqrt (x : Number) : Number := ofFloat (PrimFloat.sqrt (toFloat x)).

(** ToInt32: truncate, then wrap into [-2^31, 2^31). *)
Definition wrap32 (z : Z) : Z := (z + 2147483648) mod 4294967296 - 2147483648.

Definition toInt32 (x : Number) : Z :=
  match x with
  | Int z => wrap32 z
  | Flt f =>
      match Prim2SF f with
      | S754_finite s m e =>
          let t := if 0 <=? e then Z.pos m * 2 ^ e else Z.pos m / 2 ^ (- e) in
          wrap32 (if s then - t else t)
      | _ => 0
      end
  end.

(** [a >> n] and [a & b] *)
Definition shr (a : Number) (n : Z) : Number := Int (Z.shiftr (toInt32 a) n).
Definition band (a b : Number) : Number := Int (wrap32 (Z.land (toInt32 a) (toInt32 b))).

(** Hexadecimal digits, by character code. *)
Definition hexVal (c : ascii) : option Z :=
  let n := code c in
  if (48 <=? n) && (n <=? 57) then Some (n - 48)
  else if (97 <=? n) && (n <=? 102) then Some (n - 87)
  else if (65 <=? n) && (n <=? 70) then Some (n - 55)
  else None.

(** The lower-case digit of a value below sixteen. *)
Definition digitChar (d : Z) : ascii :=
  ascii_of_N (Z.to_N (if d <? 10 then 48 + d else 87 + d)).

(** The value of the longest prefix of hexadecimal digits. *)
Fixpoint hexPrefixFrom (acc : Z) (s : string) : Z :=
  match s with
  | EmptyString => acc
  | String c r =>
      match hexVal c with
      | Some v => hexPrefixFrom (16 * acc + v) r
      | None => acc
      end
  end.

Definition hexPrefix (s : string) : option Z :=
  match s with
  | EmptyString => None
  | String c r =>
      match hexVal c with
      | Some v => Some (hexPrefixFrom v r)
      | None => None
      end
  end.

Definition stripSign (s : string) : bool * string :=
  match s with
  | String c r =>
      if Ascii.eqb c "-" then (true, r)
      else if Ascii.eqb c "+" then (false, r)
      else (false, s)
  | EmptyString => (false, s)
  end.

Definition strip0x (s : string) : string :=
  match s with
  | String c (String d r) =>
      if Ascii.eqb c "0" && (Ascii.eqb d "x" || Ascii.eqb d "X") then r else s
  | _ => s
  end.

(** [parseInt(s, 16)]: leading white space, an optional sign, an
    optional [0x], then the longest run of digits; NaN without one. *)
Definition parseInt16 (s : string) : Number :=
  let (neg, body) := stripSign (trimStart s) in
  match hexPrefix (strip0x body) with
  | None => NaN
  | Some z =>
      if neg then (if z =? 0 then Flt neg_zero else ofZ (- z)) else ofZ z
  end.

Fixpoint hexDigitsOf (fuel : nat) (n : Z) : string :=
  match fuel with
  | O => EmptyString
  | S k =>
      if n <? 16 then String (digitChar n) EmptyString
      else hexDigitsOf k (n / 16) ++ String (digitChar (n mod 16)) EmptyString
  end.

(** The hexadecimal numeral of a natural number. *)
Definition toHex (n : Z) : string := hexDigitsOf (S (Z.to_nat (Z.log2 n))) n.

Definition intToString16 (z : Z) : string :=
  if z <? 0 then String "-" (toHex (- z)) else toHex z.

(** The digits after the point of [num / den], [0 <= num < den]. *)
Fixpoint fracDigits (fuel : nat) (num den : Z) : string :=
  match fuel with
  | O => EmptyString
  | S k =>
      if num =? 0 then EmptyString
      else String (digitChar (16 * num / den)) (fracDigits k ((16 * num) mod den) den)
  end.

(** [x.toString(16)].  Every receiver in the widget is an integer,
    NaN or an infinity; for a fraction ECMA-262 lets an engine
    shorten the digits, and the exact expansion is given here. *)
Definition toString16 (x : Number) : string :=
  match x with
  | Int z => intToString16 z
  | Flt f =>
      match Prim2SF f with
      | S754_nan => "NaN"
      | S754_infinity s => if s then "-Infinity" else "Infinity"
      | S754_zero _ => "0"
      | S754_finite s m e =>
          let body :=
            if 0 <=? e then toHex (Z.pos m * 2 ^ e)
            else
              let d := 2 ^ (- e) in
              let fr := fracDigits (Z.to_nat (- e)) (Z.pos m mod d) d in
              match fr with
              | EmptyString => toHex (Z.pos m / d)
              | _ => toHex (Z.pos m / d) ++ "." ++ fr
              end in
          if s then String "-" body else body
      end
  end.

End JS.

(** ** ThemeEngine: the palette derived from an extracted brand colour *)

(** The [colors] object of a website theme: every role is optional. *)
Module Extracted.
Record Colors : Type := {
  primary : option string;
  secondary : option string;
  background : option string;
  text : option string;
  border : option string;
  button : option string;
  link : option string;
  accent : option string
}.
End Extracted.

(** The object [getThemeColors] returns: fourteen role colours. *)
Module Palette.
Record t : Type := {
  primary : string;
  primaryDark : string;
  primaryLight : string;
  secondary : string;
  background : string;
  text : string;
  border : string;
  button : string;
  link : string;
  accent : string;
  userBg : string;
  botBg : string;
  headerBg : string;
  headerText : string
}.

Definition roles : list (t -> string) :=
  [primary; primaryDark; primaryLight; secondary; background; text; border;
   button; link; accent; userBg; botBg; headerBg; headerText].

Definition setText (v : string) (p : t) : t :=
  {| primary := primary p; primaryDark := primaryDark p;
     primaryLight := primaryLight p; secondary := secondary p;
     background := background p; text := v; border := border p;
     button := button p; link := link p; accent := accent p;
     userBg := userBg p; botBg := botBg p; headerBg := headerBg p;
     headerText := headerText p |}.

Definition setBotBg (v : string) (p : t) : t :=
  {| primary := primary p; primaryDark := primaryDark p;
     primaryLight := primaryLight p; secondary := secondary p;
     background := background p; text := text p; border := border p;
     button := button p; link := link p; accent := accent p;
     userBg := userBg p; botBg := v; headerBg := headerBg p;
     headerText := headerText p |}.

Definition setPrimary (v : string) (p : t) : t :=
  {| primary := v; primaryDark := primaryDark p;
     primaryLight := primaryLight p; secondary := secondary p;
     background := background p; text := text p; border := border p;
     button := button p; link := link p; accent := accent p;
     userBg := userBg p; botBg := botBg p; headerBg := headerBg p;
     headerText := headerText p |}.
End Palette.

Module ThemeEngine.
Import JS.

(** A website theme as the backend reports it. *)
Record ExtractedTheme : Type := { colors : option Extracted.Colors }.

Definition getDefaultThemeColors : Palette.t :=
  {| Palette.primary := "#667eea";
     Palette.primaryDark := "#764ba2";
     Palette.primaryLight := "#7c8bf0";
     Palette.secondary := "#f093fb";
     Palette.background := "#f8f9fa";
     Palette.text := "#2d3748";
     Palette.border := "#e2e8f0";
     Palette.button := "#667eea";
     Palette.link := "#667eea";
     Palette.accent := "#764ba2";
     Palette.userBg := "linear-gradient(135deg, #667eea 0%, #764ba2 100%)";
     Palette.botBg := "#ffffff";
     Palette.headerBg := "#667eea";
     Palette.headerText := "#ffffff" |}.

Definition genericColors : list string :=
  [ "#ffffff"; "#fff"; "white";
    "#000000"; "#000"; "black";
    "#333333"; "#333";
    "#666666"; "#666";
    "#999999"; "#999";
    "#cccccc"; "#ccc";
    "#f0f0f0"; "#f5f5f5"; "#fafafa";
    "#007bff"; "#0056b3"; "#0d6efd";
    "#dc3545"; "#28a745"; "#ffc107";
    "#17a2b8"; "#6c757d"; "#343a40";
    "#667eea"; "#764ba2" ].

(** [(0.299 * r + 0.587 * g + 0.114 * b) / 255] *)
Definition luminance (r g b : Number) : Number :=
  div (add (add (mul (Flt 0.299) r) (mul (Flt 0.587) g)) (mul (Flt 0.114) b))
      (Int 255).

(** [max === 0 ? 0 : (max - min) / max] *)
Definition saturation (r g b : Number) : Number :=
  let max := Math_max r g b in
  let min := Math_min r g b in
  if strictEq max (Int 0) then Int 0 else div (sub max min) max.

(** [(r * 299 + g * 587 + b * 114) / 1000] *)
Definition brightness (r g b : Number) : Number :=
  div (add (add (mul r (Int 299)) (mul g (Int 587))) (mul b (Int 114)))
      (Int 1000).

Definition isColorTooLight (color : string) : bool :=
  let hex := removeFirst "#" color in
  if negb (Nat.eqb (String.length hex) 6) then false
  else
    let r := parseInt16 (substr hex 0 2) in
    let g := parseInt16 (substr hex 2 2) in
    let b := parseInt16 (substr hex 4 2) in
    gt (luminance r g b) (Flt 0.9).

Definition isColorTooDark (color : string) : bool :=
  let hex := removeFirst "#" color in
  if negb (Nat.eqb (String.length hex) 6) then false
  else
    let r := parseInt16 (substr hex 0 2) in
    let g := parseInt16 (substr hex 2 2) in
    let b := parseInt16 (substr hex 4 2) in
    lt (luminance r g b) (Flt 0.1).

Definition hasGoodSaturation (color : string) : bool :=
  let hex := removeFirst "#" color in
  if negb (Nat.eqb (String.length hex) 6) then false
  else
    let r := parseInt16 (substr hex 0 2) in
    let g := parseInt16 (substr hex 2 2) in
    let b := parseInt16 (substr hex 4 2) in
    gt (saturation r g b) (Flt 0.15).

Definition isWebsiteSpecificColor (color : string) : bool :=
  if String.eqb color EmptyString then false
  else
    let normalizedColor := trim (toLowerCase color) in
    if includes genericColors normalizedColor then false
    else if isColorTooLight normalizedColor || isColorTooDark normalizedColor
    then false
    else hasGoodSaturation normalizedColor.

Definition isLightColor (color : string) : bool :=
  if String.eqb color EmptyString || String.eqb color "transparent" then true
  else if startsWith color "#" then
    let hex := slice1 color in
    let r := parseInt16 (substr hex 0 2) in
    let g := parseInt16 (substr hex 2 2) in
    let b := parseInt16 (substr hex 4 2) in
    gt (brightness r g b) (Int 155)
  else true.

Definition isDarkColor (color : string) : bool := negb (isLightColor color).

Definition isColorTooSimilar (color1 color2 : string) : bool :=
  if String.eqb color1 EmptyString || String.eqb color2 EmptyString
     || negb (startsWith color1 "#") || negb (startsWith color2 "#")
  then false
  else
    let hex1 := slice1 color1 in
    let hex2 := slice1 color2 in
    let r1 := parseInt16 (substr hex1 0 2) in
    let g1 := parseInt16 (substr hex1 2 2) in
    let b1 := parseInt16 (substr hex1 4 2) in
    let r2 := parseInt16 (substr hex2 0 2) in
    let g2 := parseInt16 (substr hex2 2 2) in
    let b2 := parseInt16 (substr hex2 4 2) in
    let distance :=
      Math_sqrt (add (add (Math_pow2 (sub r2 r1)) (Math_pow2 (sub g2 g1)))
                     (Math_pow2 (sub b2 b1))) in
    lt distance (Int 100).

(** [`#${r}${g}${b}`] with each channel as [x.toString(16).padStart(2, '0')] *)
Definition hexString (r g b : Number) : string :=
  "#" ++ padStart (toString16 r) 2 "0" ++ padStart (toString16 g) 2 "0"
      ++ padStart (toString16 b) 2 "0".

Definition darkenColor (color : string) (percent : Number) : string :=
  if String.eqb color EmptyString || negb (startsWith color "#") then color
  else
    let hex := slice1 color in
    let r := parseInt16 (substr hex 0 2) in
    let g := parseInt16 (substr hex 2 2) in
    let b := parseInt16 (substr hex 4 2) in
    let factor := div (sub (Int 100) percent) (Int 100) in
    let newR := Math_round (mul r factor) in
    let newG := Math_round (mul g factor) in
    let newB := Math_round (mul b factor) in
    hexString newR newG newB.

Definition lightenColor (color : string) (percent : Number) : string :=
  if String.eqb color EmptyString || negb (startsWith color "#") then color
  else
    let hex := slice1 color in
    let r := parseInt16 (substr hex 0 2) in
    let g := parseInt16 (substr hex 2 2) in
    let b := parseInt16 (substr hex 4 2) in
    let factor := div percent (Int 100) in
    let newR := Math_round (add r (mul (sub (Int 255) r) factor)) in
    let newG := Math_round (add g (mul (sub (Int 255) g) factor)) in
    let newB := Math_round (add b (mul (sub (Int 255) b) factor)) in
    hexString newR newG newB.

(** [X < 255 ? (X < 1 ? 0 : X) : 255] *)
Definition clampChannel (x : Number) : Number :=
  if lt x (Int 255) then (if lt x (Int 1) then Int 0 else x) else Int 255.

Definition adjustColorBrightness (hex : string) (percent : Number) : string :=
  if String.eqb hex EmptyString || negb (startsWith hex "#") then hex
  else
    let hex := removeFirst "#" hex in
    let num := parseInt16 hex in
    let amt := Math_round (mul (Flt 2.55) percent) in
    let R := add (shr num 16) amt in
    let G := add (band (shr num 8) (Int 255)) amt in
    let B := add (band num (Int 255)) amt in
    "#" ++ slice1 (toString16
      (add (add (add (Int 16777216) (mul (clampChannel R) (Int 65536)))
                (mul (clampChannel G) (Int 256)))
           (clampChannel B))).

Definition generateBotBackgroundColor (colors : Extracted.Colors) : string :=
  let secondary := Extracted.secondary colors in
  let primary := Extracted.primary colors in
  if negb (falsy secondary) && negb (sameOpt secondary primary)
  then lightenColor (orElse secondary EmptyString) (Int 60)
  else if negb (falsy primary) then lightenColor (orElse primary EmptyString) (Int 75)
  else "#f1f3f5".

Definition getContrastingTextColor (backgroundColor : string) : string :=
  if isLightColor backgroundColor then "#ffffff" else "#2d3748".

(** The three checks of [ensureAccessibleColors], in the order the
    function makes them on the same object. *)
Definition contrastText (colors : Palette.t) : Palette.t :=
  if isLightColor (Palette.background colors) && isLightColor (Palette.text colors)
  then Palette.setText "#2d3748" colors
  else if isDarkColor (Palette.background colors) && isDarkColor (Palette.text colors)
  then Palette.setText "#f7fafc" colors
  else colors.

Definition contrastBotBg (colors : Palette.t) : Palette.t :=
  if isLightColor (Palette.botBg colors) && isLightColor (Palette.text colors)
  then Palette.setBotBg "#f8f9fa" colors
  else if isDarkColor (Palette.botBg colors) && isDarkColor (Palette.text colors)
  then Palette.setBotBg "#e2e8f0" colors
  else colors.

Definition distinctPrimary (colors : Palette.t) : Palette.t :=
  if isColorTooSimilar (Palette.primary colors) (Palette.background colors)
  then Palette.setPrimary
         (if isLightColor (Palette.background colors) then "#4299e1" else "#63b3ed")
         colors
  else colors.

Definition ensureAccessibleColors (colors : Palette.t) : Palette.t :=
  distinctPrimary (contrastBotBg (contrastText colors)).

(** The palette built from validated extracted colours, before the
    accessibility pass. *)
Definition buildThemeColors (colors : Extracted.Colors) (primary : string)
  : Palette.t :=
  let background := orElse (Extracted.background colors) "#ffffff" in
  {| Palette.primary := primary;
     Palette.primaryDark := darkenColor primary (Int 20);
     Palette.primaryLight := lightenColor primary (Int 20);
     Palette.secondary :=
       orElse (Extracted.secondary colors) (adjustColorBrightness primary (Int (-15)));
     Palette.background := background;
     Palette.text :=
       orElse (Extracted.text colors) (getContrastingTextColor background);
     Palette.border :=
       orElse (Extracted.border colors) (adjustColorBrightness background (Int (-8)));
     Palette.button := orElse (Extracted.button colors) primary;
     Palette.link := orElse (Extracted.link colors) primary;
     Palette.accent := orElse (Extracted.accent colors) primary;
     Palette.userBg := primary;
     Palette.botBg := generateBotBackgroundColor colors;
     Palette.headerBg := primary;
     Palette.headerText := getContrastingTextColor primary |}.

(** [getThemeColors()], reading [this.options.themeStyle] and
    [this.websiteTheme]. *)
Definition getThemeColors (themeStyle : string)
    (websiteTheme : option ExtractedTheme) : Palette.t :=
  match websiteTheme with
  | Some theme =>
      match colors theme with
      | Some colors =>
          if String.eqb themeStyle "website" then
            match Extracted.primary colors with
            | Some primary =>
                if negb (String.eqb primary EmptyString) && isWebsiteSpecificColor primary
                then ensureAccessibleColors (buildThemeColors colors primary)
                else getDefaultThemeColors
            | None => getDefaultThemeColors
            end
          else getDefaultThemeColors
      | None => getDefaultThemeColors
      end
  | None => getDefaultThemeColors
  end.

End ThemeEngine.

(** ** ConfigSync: the configuration poller and the widget it drives *)

Module Website.
Record t : Type := {
  id : option string;
  url : option string;
  displayName : option string;
  fileName : option string
}.
End Website.

Module Customizations.
Record t : Type := {
  position : option string;
  title : option string;
  placeholder : option string
}.
End Customizations.

(** [this.options] *)
Module Options.
Record t : Type := {
  position : string;
  title : string;
  placeholder : string;
  themeStyle : string
}.

Definition setPosition (v : string) (o : t) : t :=
  {| position := v; title := title o; placeholder := placeholder o;
     themeStyle := themeStyle o |}.
Definition setTitle (v : string) (o : t) : t :=
  {| position := position o; title := v; placeholder := placeholder o;
     themeStyle := themeStyle o |}.
Definition setPlaceholder (v : string) (o : t) : t :=
  {| position := position o; title := title o; placeholder := v;
     themeStyle := themeStyle o |}.
Definition setThemeStyle (v : string) (o : t) : t :=
  {| position := position o; title := title o; placeholder := placeholder o;
     themeStyle := v |}.
End Options.

(** The widget's DOM subtree, as far as the modelled code touches it. *)
Module Widget.

(** What [#chatbot-messages] shows. *)
Inductive Messages : Type :=
| Greeting
| Welcome (siteSelected : bool)
| InvalidApiKey
| NoWebsites.

Record t : Type := {
  className : string;
  titleText : string;
  messages : Messages;
  inputDisabled : bool;
  sendDisabled : bool;
  inputPlaceholder : string;
  linkText : option string;
  linkHref : string;
  attached : bool
}.

Definition setClassName (v : string) (w : t) : t :=
  {| className := v; titleText := titleText w; messages := messages w;
     inputDisabled := inputDisabled w; sendDisabled := sendDisabled w;
     inputPlaceholder := inputPlaceholder w; linkText := linkText w;
     linkHref := linkHref w; attached := attached w |}.
Definition setTitleText (v : string) (w : t) : t :=
  {| className := className w; titleText := v; messages := messages w;
     inputDisabled := inputDisabled w; sendDisabled := sendDisabled w;
     inputPlaceholder := inputPlaceholder w; linkText := linkText w;
     linkHref := linkHref w; attached := attached w |}.
Definition setMessages (v : Messages) (w : t) : t :=
  {| className := className w; titleText := titleText w; messages := v;
     inputDisabled := inputDisabled w; sendDisabled := sendDisabled w;
     inputPlaceholder := inputPlaceholder w; linkText := linkText w;
     linkHref := linkHref w; attached := attached w |}.
Definition setInput (disabled : bool) (placeholder : string) (w : t) : t :=
  {| className := className w; titleText := titleText w; messages := messages w;
     inputDisabled := disabled; sendDisabled := sendDisabled w;
     inputPlaceholder := placeholder; linkText := linkText w;
     linkHref := linkHref w; attached := attached w |}.
Definition setSendDisabled (v : bool) (w : t) : t :=
  {| className := className w; titleText := titleText w; messages := messages w;
     inputDisabled := inputDisabled w; sendDisabled := v;
     inputPlaceholder := inputPlaceholder w; linkText := linkText w;
     linkHref := linkHref w; attached := attached w |}.
Definition setLink (text : option string) (href : string) (w : t) : t :=
  {| className := className w; titleText := titleText w; messages := messages w;
     inputDisabled := inputDisabled w; sendDisabled := sendDisabled w;
     inputPlaceholder := inputPlaceholder w; linkText := text;
     linkHref := href; attached := attached w |}.
Definition remove (w : t) : t :=
  {| className := className w; titleText := titleText w; messages := messages w;
     inputDisabled := inputDisabled w; sendDisabled := sendDisabled w;
     inputPlaceholder := inputPlaceholder w; linkText := linkText w;
     linkHref := linkHref w; attached := false |}.
End Widget.

Module ConfigSync.
Import JS ThemeEngine.

Inductive Error : Type := TypeError.

(** The [themeData] object of a configuration is kept as the backend
    sent it.  [JSON.stringify] is the host's; [emptyObject] is [{}];
    [websiteThemeOf] is the view [getThemeColors] reads ([.colors]). *)
Class ThemeObject (ThemeData : Type) : Type := {
  JSON_stringify : ThemeData -> string;
  emptyObject : ThemeData;
  websiteThemeOf : ThemeData -> ExtractedTheme
}.

Section Sync.

Context {ThemeData : Type} `{!ThemeObject ThemeData}.

Record Integration : Type := {
  themeChoice : option string;
  customizations : option Customizations.t
}.

Record RemoteConfig : Type := {
  selectedWebsite : option Website.t;
  availableWebsites : option (list Website.t);
  integration : option Integration;
  themeData : option ThemeData
}.

(** The fields of a [ChatBot] instance, with its widget and the
    [#chatbot-styles] sheet (the fourteen custom properties). *)
Record ChatBot : Type := {
  sdkConfig : option RemoteConfig;
  options : Options.t;
  websiteTheme : option ThemeData;
  currentFileId : option string;
  chatHistory : list string;
  configRefreshInterval : option nat;
  widget : Widget.t;
  styleSheet : Palette.t
}.

Definition setSdkConfig (v : option RemoteConfig) (b : ChatBot) : ChatBot :=
  {| sdkConfig := v; options := options b; websiteTheme := websiteTheme b;
     currentFileId := currentFileId b; chatHistory := chatHistory b;
     configRefreshInterval := configRefreshInterval b; widget := widget b;
     styleSheet := styleSheet b |}.
Definition setOptions (v : Options.t) (b : ChatBot) : ChatBot :=
  {| sdkConfig := sdkConfig b; options := v; websiteTheme := websiteTheme b;
     currentFileId := currentFileId b; chatHistory := chatHistory b;
     configRefreshInterval := configRefreshInterval b; widget := widget b;
     styleSheet := styleSheet b |}.
Definition setWebsiteTheme (v : option ThemeData) (b : ChatBot) : ChatBot :=
  {| sdkConfig := sdkConfig b; options := options b; websiteTheme := v;
     currentFileId := currentFileId b; chatHistory := chatHistory b;
     configRefreshInterval := configRefreshInterval b; widget := widget b;
     styleSheet := styleSheet b |}.
Definition setCurrentFileId (v : option string) (b : ChatBot) : ChatBot :=
  {| sdkConfig := sdkConfig b; options := options b; websiteTheme := websiteTheme b;
     currentFileId := v; chatHistory := chatHistory b;
     configRefreshInterval := configRefreshInterval b; widget := widget b;
     styleSheet := styleSheet b |}.
Definition setChatHistory (v : list string) (b : ChatBot) : ChatBot :=
  {| sdkConfig := sdkConfig b; options := options b; websiteTheme := websiteTheme b;
     currentFileId := currentFileId b; chatHistory := v;
     configRefreshInterval := configRefreshInterval b; widget := widget b;
     styleSheet := styleSheet b |}.
Definition setConfigRefreshInterval (v : option nat) (b : ChatBot) : ChatBot :=
  {| sdkConfig := sdkConfig b; options := options b; websiteTheme := websiteTheme b;
     currentFileId := currentFileId b; chatHistory := chatHistory b;
     configRefreshInterval := v; widget := widget b;
     styleSheet := styleSheet b |}.
Definition setWidget (v : Widget.t) (b : ChatBot) : ChatBot :=
  {| sdkConfig := sdkConfig b; options := options b; websiteTheme := websiteTheme b;
     currentFileId := currentFileId b; chatHistory := chatHistory b;
     configRefreshInterval := configRefreshInterval b; widget := v;
     styleSheet := styleSheet b |}.
Definition setStyleSheet (v : Palette.t) (b : ChatBot) : ChatBot :=
  {| sdkConfig := sdkConfig b; options := options b; websiteTheme := websiteTheme b;
     currentFileId := currentFileId b; chatHistory := chatHistory b;
     configRefreshInterval := configRefreshInterval b; widget := widget b;
     styleSheet := v |}.

(** [x?.id] and [x?.themeChoice] *)
Definition websiteId (w : option Website.t) : option string :=
  match w with
  | Some site => Website.id site
  | None => None
  end.

Definition themeChoiceOf (i : option Integration) : option string :=
  match i with
  | Some integ => themeChoice integ
  | None => None
  end.

(** [JSON.stringify(x || {})] *)
Definition serializeThemeData (x : option ThemeData) : string :=
  JSON_stringify (match x with Some t => t | None => emptyObject end).

Definition hasConfigurationChanged (this : ChatBot) (newConfig : RemoteConfig)
  : bool :=
  match sdkConfig this with
  | None => true
  | Some old =>
      let oldWebsiteId := websiteId (selectedWebsite old) in
      let newWebsiteId := websiteId (selectedWebsite newConfig) in
      if negb (sameOpt oldWebsiteId newWebsiteId) then true
      else
        let oldThemeChoice := themeChoiceOf (integration old) in
        let newThemeChoice := themeChoiceOf (integration newConfig) in
        if negb (sameOpt oldThemeChoice newThemeChoice) then true
        else if sameOpt newThemeChoice (Some "website") then
          let oldThemeData := serializeThemeData (themeData old) in
          let newThemeData := serializeThemeData (themeData newConfig) in
          negb (String.eqb oldThemeData newThemeData)
        else false
  end.

(** The custom properties [createStyles] writes: some roles fall back
    to [primary] (or white) when empty. *)
Definition cssVariables (c : Palette.t) : Palette.t :=
  let fallback (v d : string) := if String.eqb v EmptyString then d else v in
  {| Palette.primary := Palette.primary c;
     Palette.primaryDark := Palette.primaryDark c;
     Palette.primaryLight := fallback (Palette.primaryLight c) (Palette.primary c);
     Palette.secondary := Palette.secondary c;
     Palette.background := Palette.background c;
     Palette.text := Palette.text c;
     Palette.border := Palette.border c;
     Palette.button := fallback (Palette.button c) (Palette.primary c);
     Palette.link := fallback (Palette.link c) (Palette.primary c);
     Palette.accent := fallback (Palette.accent c) (Palette.primary c);
     Palette.userBg := Palette.userBg c;
     Palette.botBg := Palette.botBg c;
     Palette.headerBg := fallback (Palette.headerBg c) (Palette.primary c);
     Palette.headerText := fallback (Palette.headerText c) "#ffffff" |}.

Definition themeColorsOf (this : ChatBot) : Palette.t :=
  getThemeColors (Options.themeStyle (options this))
                 (option_map websiteThemeOf (websiteTheme this)).

Definition createStyles (this : ChatBot) : ChatBot :=
  setStyleSheet (cssVariables (themeColorsOf this)) this.

Definition enableInput (this : ChatBot) : ChatBot :=
  let placeholder :=
    orElse (Some (Options.placeholder (options this)))
           "Ask me anything about this website..." in
  setWidget
    (Widget.setSendDisabled false (Widget.setInput false placeholder (widget this)))
    this.

Definition clearChat (this : ChatBot) : ChatBot :=
  setChatHistory []
    (setWidget
       (Widget.setMessages (Widget.Welcome (negb (falsy (currentFileId this))))
                           (widget this))
       this).

Definition updateChatHeader (siteName siteUrl : option string) (this : ChatBot)
  : ChatBot :=
  let text := if falsy siteUrl then siteName else siteUrl in
  setWidget (Widget.setLink text (orElse siteUrl "#") (widget this)) this.

Definition showNoSitesMessage (this : ChatBot) : ChatBot :=
  setWidget
    (Widget.setSendDisabled true
       (Widget.setInput true "No websites available for chat"
          (Widget.setMessages Widget.NoWebsites (widget this))))
    this.

(** [showApiKeyError]: after the message and the disabled input it
    looks up [#chatbot-site-selector], which the widget does not
    contain, and dereferences the [null] it gets. *)
Definition showApiKeyError (this : ChatBot) : ChatBot * option Error :=
  (setWidget
     (Widget.setInput true "Invalid API key - chatbot disabled"
        (Widget.setSendDisabled true
           (Widget.setMessages Widget.InvalidApiKey (widget this))))
     this,
   Some TypeError).

(** The branch shared by both loaders once a site is chosen. *)
Definition useWebsite (site : Website.t) (this : ChatBot) : ChatBot :=
  let this := setCurrentFileId (Website.id site) this in
  let this := enableInput this in
  let this := clearChat this in
  updateChatHeader
    (if falsy (Website.displayName site) then Website.fileName site
     else Website.displayName site)
    (Website.url site) this.

(** The three updates made when [customizations] is present. *)
Definition updatePosition (v : option string) (this : ChatBot) : ChatBot :=
  match v with
  | Some p =>
      if negb (String.eqb p EmptyString)
         && negb (String.eqb p (Options.position (options this)))
      then setWidget (Widget.setClassName ("chatbot-widget " ++ p) (widget this))
             (setOptions (Options.setPosition p (options this)) this)
      else this
  | None => this
  end.

Definition updateTitle (v : option string) (this : ChatBot) : ChatBot :=
  match v with
  | Some t =>
      if negb (String.eqb t EmptyString)
         && negb (String.eqb t (Options.title (options this)))
      then setWidget (Widget.setTitleText t (widget this))
             (setOptions (Options.setTitle t (options this)) this)
      else this
  | None => this
  end.

Definition updatePlaceholder (v : option string) (this : ChatBot) : ChatBot :=
  match v with
  | Some p =>
      if negb (String.eqb p EmptyString)
         && negb (String.eqb p (Options.placeholder (options this)))
      then
        let this := setOptions (Options.setPlaceholder p (options this)) this in
        if negb (Widget.inputDisabled (widget this))
        then setWidget (Widget.setInput false p (widget this)) this
        else this
      else this
  | None => this
  end.

Definition applyCustomizations (c : Customizations.t) (this : ChatBot) : ChatBot :=
  updatePlaceholder (Customizations.placeholder c)
    (updateTitle (Customizations.title c)
       (updatePosition (Customizations.position c) this)).

Definition isWebsiteChoice (integ : Integration) : bool :=
  sameOpt (themeChoice integ) (Some "website").

(** The three blocks of [applyNewConfiguration] that follow the
    assignment of the baseline: settings, theme, selected website. *)
Definition updateSettings (integ : Integration) (this : ChatBot) : ChatBot :=
  match customizations integ with
  | Some c => applyCustomizations c this
  | None => this
  end.

Definition updateThemeSettings (integ : Integration) (newConfig : RemoteConfig)
    (this : ChatBot) : ChatBot :=
  match themeData newConfig with
  | Some td =>
      if isWebsiteChoice integ
      then setWebsiteTheme (Some td)
             (setOptions (Options.setThemeStyle "website" (options this)) this)
      else setWebsiteTheme None
             (setOptions (Options.setThemeStyle "default" (options this)) this)
  | None =>
      setWebsiteTheme None
        (setOptions (Options.setThemeStyle "default" (options this)) this)
  end.

(** The last block, with the re-applied styles; it throws when neither
    a selected website nor the list is there. *)
Definition updateSelectedWebsite (newConfig : RemoteConfig) (this : ChatBot)
  : ChatBot * option Error :=
  match selectedWebsite newConfig with
  | Some site => (createStyles (useWebsite site this), None)
  | None =>
      match availableWebsites newConfig with
      | None => (this, Some TypeError)
      | Some (firstSite :: _) => (createStyles (useWebsite firstSite this), None)
      | Some [] => (createStyles (showNoSitesMessage this), None)
      end
  end.

(** [applyNewConfiguration]: the state it leaves, and the error it
    throws if any. *)
Definition applyNewConfiguration (this : ChatBot) (newConfig : RemoteConfig)
  : ChatBot * option Error :=
  let this := setSdkConfig (Some newConfig) this in
  match integration newConfig with
  | None => (this, Some TypeError)
  | Some integ =>
      updateSelectedWebsite newConfig
        (updateThemeSettings integ newConfig (updateSettings integ this))
  end.

(** What a [fetch] of [/sdk-config] resolves to. *)
Inductive Response : Type :=
| FetchFailed
| Envelope (success : bool) (data : option RemoteConfig).

(** [refreshConfiguration] from the point its [fetch] resolves; the
    [catch] swallows whatever the body throws. *)
Definition refreshConfigurationResume (this : ChatBot) (r : Response) : ChatBot :=
  match r with
  | Envelope true (Some newConfig) =>
      if hasConfigurationChanged this newConfig
      then fst (applyNewConfiguration this newConfig)
      else this
  | _ => this
  end.

(** The blocks of [loadSdkConfiguration]: the settings go to
    [this.options] only; an error thrown anywhere is caught and shows
    the no-websites message. *)
Definition loadSettings (integ : Integration) (this : ChatBot) : ChatBot :=
  let custom (f : Customizations.t -> option string) : option string :=
    match customizations integ with
    | Some c => if falsy (f c) then None else f c
    | None => None
    end in
  let this :=
    match custom Customizations.position with
    | Some p => setOptions (Options.setPosition p (options this)) this
    | None => this
    end in
  let this :=
    match custom Customizations.title with
    | Some t => setOptions (Options.setTitle t (options this)) this
    | None => this
    end in
  match custom Customizations.placeholder with
  | Some p => setOptions (Options.setPlaceholder p (options this)) this
  | None => this
  end.

Definition loadThemeSettings (integ : Integration) (config : RemoteConfig)
    (this : ChatBot) : ChatBot :=
  match themeData config with
  | Some td =>
      if isWebsiteChoice integ
      then setWebsiteTheme (Some td)
             (setOptions (Options.setThemeStyle "website" (options this)) this)
      else setOptions (Options.setThemeStyle "default" (options this)) this
  | None => setOptions (Options.setThemeStyle "default" (options this)) this
  end.

Definition loadSelectedWebsite (config : RemoteConfig) (this : ChatBot)
  : ChatBot :=
  match selectedWebsite config with
  | Some site => createStyles (useWebsite site this)
  | None =>
      match availableWebsites config with
      | None => showNoSitesMessage this
      | Some (firstSite :: _) => createStyles (useWebsite firstSite this)
      | Some [] => createStyles (showNoSitesMessage this)
      end
  end.

(** [loadSdkConfiguration] from the point its [fetch] resolves. *)
Definition loadSdkConfigurationResume (this : ChatBot) (r : Response) : ChatBot :=
  match r with
  | Envelope true (Some config) =>
      let this := setSdkConfig (Some config) this in
      match integration config with
      | None => showNoSitesMessage this
      | Some integ =>
          loadSelectedWebsite config
            (loadThemeSettings integ config (loadSettings integ this))
      end
  | _ => showNoSitesMessage this
  end.

(** *** The page: the instance together with the host's timers,
    listeners and requests in flight *)

Inductive Stage : Type :=
| AwaitingValidation
| AwaitingConfiguration
| Settled.

Record Page : Type := {
  bot : ChatBot;
  stage : Stage;
  initRejected : bool;
  activeTimers : list nat;
  nextHandle : nat;
  visibilityListener : bool;
  focusListener : bool;
  inFlight : nat
}.

Definition setBot (v : ChatBot) (p : Page) : Page :=
  {| bot := v; stage := stage p; initRejected := initRejected p;
     activeTimers := activeTimers p; nextHandle := nextHandle p;
     visibilityListener := visibilityListener p;
     focusListener := focusListener p; inFlight := inFlight p |}.

(** [createChatWidget] *)
Definition createChatWidget (o : Options.t) : Widget.t :=
  {| Widget.className := "chatbot-widget " ++ Options.position o;
     Widget.titleText := Options.title o;
     Widget.messages := Widget.Greeting;
     Widget.inputDisabled := true;
     Widget.sendDisabled := true;
     Widget.inputPlaceholder := Options.placeholder o;
     Widget.linkText := Some "No website selected";
     Widget.linkHref := "#";
     Widget.attached := true |}.

Definition defaultOptions : Options.t :=
  {| Options.position := "bottom-right";
     Options.title := "ChatFlow AI Assistant";
     Options.placeholder := "Ask me anything about this website...";
     Options.themeStyle := "auto" |}.

(** The page when [new ChatBot(apiKey)] returns: [init] has run up to
    its first [await], and [setupConfigRefresh] has installed the
    timer and both listeners. *)
Definition constructor : Page :=
  let this :=
    {| sdkConfig := None; options := defaultOptions; websiteTheme := None;
       currentFileId := None; chatHistory := [];
       configRefreshInterval := None;
       widget := createChatWidget defaultOptions;
       styleSheet := cssVariables getDefaultThemeColors |} in
  let this := createStyles this in
  {| bot := setConfigRefreshInterval (Some 1%nat) this;
     stage := AwaitingValidation;
     initRejected := false;
     activeTimers := [1%nat];
     nextHandle := 2%nat;
     visibilityListener := true;
     focusListener := true;
     inFlight := 0%nat |}.

(** [destroy] *)
Definition destroy (p : Page) : Page :=
  let timers :=
    match configRefreshInterval (bot p) with
    | Some h =>
        if Nat.eqb h 0 then activeTimers p
        else List.filter (fun t => negb (Nat.eqb t h)) (activeTimers p)
    | None => activeTimers p
    end in
  {| bot := setWidget (Widget.remove (widget (bot p))) (bot p);
     stage := stage p; initRejected := initRejected p;
     activeTimers := timers; nextHandle := nextHandle p;
     visibilityListener := visibilityListener p;
     focusListener := focusListener p; inFlight := inFlight p |}.

(** What the host can deliver to the page. *)
Inductive Event : Type :=
| ValidationResult (isValidKey : bool)
| ConfigurationLoaded (r : Response)
| TimerTick (handle : nat)
| VisibilityChange (hidden : bool)
| WindowFocus
| ManualRefresh
| PollResponse (r : Response)
| Destroy.

(** Whether an event makes the page call [refreshConfiguration]. *)
Definition triggersPoll (p : Page) (e : Event) : bool :=
  match e with
  | TimerTick h => existsb (Nat.eqb h) (activeTimers p)
  | VisibilityChange hidden => visibilityListener p && negb hidden
  | WindowFocus => focusListener p
  | ManualRefresh => true
  | _ => false
  end.

Definition startPoll (p : Page) : Page :=
  {| bot := bot p; stage := stage p; initRejected := initRejected p;
     activeTimers := activeTimers p; nextHandle := nextHandle p;
     visibilityListener := visibilityListener p;
     focusListener := focusListener p; inFlight := S (inFlight p) |}.

Definition step (p : Page) (e : Event) : Page :=
  match e with
  | ValidationResult isValidKey =>
      match stage p with
      | AwaitingValidation =>
          if isValidKey then
            {| bot := bot p; stage := AwaitingConfiguration;
               initRejected := initRejected p;
               activeTimers := activeTimers p; nextHandle := nextHandle p;
               visibilityListener := visibilityListener p;
               focusListener := focusListener p; inFlight := inFlight p |}
          else
            let (this, err) := showApiKeyError (bot p) in
            {| bot := this; stage := Settled;
               initRejected := match err with Some _ => true | None => false end;
               activeTimers := activeTimers p; nextHandle := nextHandle p;
               visibilityListener := visibilityListener p;
               focusListener := focusListener p; inFlight := inFlight p |}
      | _ => p
      end
  | ConfigurationLoaded r =>
      match stage p with
      | AwaitingConfiguration =>
          {| bot := loadSdkConfigurationResume (bot p) r; stage := Settled;
             initRejected := initRejected p;
             activeTimers := activeTimers p; nextHandle := nextHandle p;
             visibilityListener := visibilityListener p;
             focusListener := focusListener p; inFlight := inFlight p |}
      | _ => p
      end
  | PollResponse r =>
      match inFlight p with
      | O => p
      | S n =>
          {| bot := refreshConfigurationResume (bot p) r; stage := stage p;
             initRejected := initRejected p;
             activeTimers := activeTimers p; nextHandle := nextHandle p;
             visibilityListener := visibilityListener p;
             focusListener := focusListener p; inFlight := n |}
      end
  | Destroy => destroy p
  | _ => if triggersPoll p e then startPoll p else p
  end.

Definition run (p : Page) (es : list Event) : Page := fold_left step es p.

End Sync.

End ConfigSync.

(** ** The colour values of the data model

    A colour is a 24-bit RGB value written [#rrggbb]; [channels]
    decodes exactly that form, and is what the statements below mean by
    the channels of a role. *)

Module Color.
Import JS.

Definition isHexDigit (c : ascii) : bool :=
  match hexVal c with
  | Some _ => true
  | None => false
  end.

Definition hexChars : list ascii :=
  [ "0"; "1"; "2"; "3"; "4"; "5"; "6"; "7"; "8"; "9";
    "a"; "b"; "c"; "d"; "e"; "f"; "A"; "B"; "C"; "D"; "E"; "F" ]%char.

(** The value of a two-digit hexadecimal byte. *)
Definition byteOf (c1 c2 : ascii) : option Z :=
  match hexVal c1, hexVal c2 with
  | Some a, Some b => Some (16 * a + b)
  | _, _ => None
  end.

Definition channels (s : string) : option (Z * Z * Z) :=
  match s with
  | String h (String c1 (String c2 (String c3 (String c4 (String c5
      (String c6 EmptyString)))))) =>
      if Ascii.eqb h "#" then
        match byteOf c1 c2, byteOf c3 c4, byteOf c5 c6 with
        | Some r, Some g, Some b => Some (r, g, b)
        | _, _, _ => None
        end
      else None
  | _ => None
  end.

(** A role holds a colour whose three channels lie in [0, 255]. *)
Definition inGamut (s : string) : Prop :=
  exists r g b, channels s = Some (r, g, b)
    /\ 0 <= r <= 255 /\ 0 <= g <= 255 /\ 0 <= b <= 255.

(** An optional extracted role is either absent or a colour. *)
Definition wellFormed (o : option string) : Prop :=
  match o with
  | None => True
  | Some s => channels s <> None
  end.

(** Every role the theme reports is a colour. *)
Definition allWellFormed (cs : Extracted.Colors) : Prop :=
  wellFormed (Extracted.primary cs) /\ wellFormed (Extracted.secondary cs)
  /\ wellFormed (Extracted.background cs) /\ wellFormed (Extracted.text cs)
  /\ wellFormed (Extracted.border cs) /\ wellFormed (Extracted.button cs)
  /\ wellFormed (Extracted.link cs) /\ wellFormed (Extracted.accent cs).

(** The two lower-case digits of a byte. *)
Definition byteHex (v : Z) : string :=
  String (digitChar (v / 16)) (String (digitChar (v mod 16)) EmptyString).

Definition bytes : list Z := List.map Z.of_nat (List.seq 0 256).

Definition isByte (x : Number) : bool :=
  match x with
  | Int z => (0 <=? z) && (z <=? 255)
  | Flt _ => false
  end.

(** [x.toString(16).padStart(2, '0')] is the two digits of a byte. *)
Definition printsAsByte (x : Number) : bool :=
  match x with
  | Int z =>
      (0 <=? z) && (z <=? 255)
      && String.eqb (padStart (toString16 x) 2 "0") (byteHex z)
  | Flt _ => false
  end.

(** What the parser's tests answer on a hexadecimal digit. *)
Definition plainDigit (c : ascii) : bool :=
  negb (isWhiteSpace c) && negb (Ascii.eqb c "-") && negb (Ascii.eqb c "+")
  && negb (Ascii.eqb c "x") && negb (Ascii.eqb c "X") && negb (Ascii.eqb c "#")
  && match hexVal c, hexVal (lowerChar c) with
     | Some v, Some w => (v =? w) && (0 <=? v) && (v <=? 15)
                         && isHexDigit (lowerChar c)
     | _, _ => false
     end.

(** One channel of [darkenColor], of [lightenColor] and of
    [adjustColorBrightness]: the expression the code applies to the
    parsed value [v]. *)
Definition darkenChannel (percent : Number) (v : Z) : Number :=
  Math_round (mul (Int v) (div (sub (Int 100) percent) (Int 100))).

Definition lightenChannel (percent : Number) (v : Z) : Number :=
  Math_round (add (Int v) (mul (sub (Int 255) (Int v)) (div percent (Int 100)))).

Definition adjustChannel (percent : Number) (v : Z) : Number :=
  ThemeEngine.clampChannel (add (Int v) (Math_round (mul (Flt 2.55) percent))).

(** A channel expression yields the integer [z]. *)
Definition channelIs (x : Number) (z : Z) : bool :=
  match x with
  | Int w => w =? z
  | Flt _ => false
  end.

End Color.

(** A concrete theme object: the extracted theme itself, serialized
    with its present colour roles in a fixed order. *)
Module PlainTheme.
Import JS ThemeEngine.

Definition quote : string := String (ascii_of_nat 34) EmptyString.

Definition quoted (s : string) : string := quote ++ s ++ quote.

Definition member (key : string) (v : option string) : list string :=
  match v with
  | Some s => [ quoted key ++ ":" ++ quoted s ]
  | None => []
  end.

Definition stringifyColors (c : Extracted.Colors) : string :=
  "{" ++ String.concat ","
    (member "primary" (Extracted.primary c)
     ++ member "secondary" (Extracted.secondary c)
     ++ member "background" (Extracted.background c)
     ++ member "text" (Extracted.text c)
     ++ member "border" (Extracted.border c)
     ++ member "button" (Extracted.button c)
     ++ member "link" (Extracted.link c)
     ++ member "accent" (Extracted.accent c))%list ++ "}".

Definition stringify (t : ExtractedTheme) : string :=
  match colors t with
  | Some c => "{" ++ quoted "colors" ++ ":" ++ stringifyColors c ++ "}"
  | None => "{}"
  end.

#[export] Instance themeObject : ConfigSync.ThemeObject ExtractedTheme := {
  ConfigSync.JSON_stringify := stringify;
  ConfigSync.emptyObject := {| colors := None |};
  ConfigSync.websiteThemeOf := fun t => t
}.

(** A configuration that selects the website [a] and the default
    theme, and one that names no website at all. *)
Definition siteA : Website.t :=
  {| Website.id := Some "a"; Website.url := Some "https://a.example";
     Website.displayName := Some "A"; Website.fileName := Some "a.json" |}.

Definition defaultIntegration : ConfigSync.Integration :=
  {| ConfigSync.themeChoice := Some "default";
     ConfigSync.customizations := None |}.

Definition configA : ConfigSync.RemoteConfig (ThemeData := ExtractedTheme) :=
  {| ConfigSync.selectedWebsite := Some siteA;
     ConfigSync.availableWebsites := Some [siteA];
     ConfigSync.integration := Some defaultIntegration;
     ConfigSync.themeData := None |}.

Definition configWithoutSites
  : ConfigSync.RemoteConfig (ThemeData := ExtractedTheme) :=
  {| ConfigSync.selectedWebsite := None;
     ConfigSync.availableWebsites := None;
     ConfigSync.integration := Some defaultIntegration;
     ConfigSync.themeData := None |}.

(** A configuration whose customizations move the widget. *)
Definition leftCustomizations : Customizations.t :=
  {| Customizations.position := Some "bottom-left";
     Customizations.title := None;
     Customizations.placeholder := None |}.

Definition leftIntegration : ConfigSync.Integration :=
  {| ConfigSync.themeChoice := Some "default";
     ConfigSync.customizations := Some leftCustomizations |}.

Definition configLeft : ConfigSync.RemoteConfig (ThemeData := ExtractedTheme) :=
  {| ConfigSync.selectedWebsite := Some siteA;
     ConfigSync.availableWebsites := Some [siteA];
     ConfigSync.integration := Some leftIntegration;
     ConfigSync.themeData := None |}.

Definition onlyPrimary (p : string) : Extracted.Colors :=
  {| Extracted.primary := Some p; Extracted.secondary := None;
     Extracted.background := None; Extracted.text := None;
     Extracted.border := None; Extracted.button := None;
     Extracted.link := None; Extracted.accent := None |}.

End PlainTheme.

(** * Properties *)

(** ** Facts about the primitives *)

Module JSFacts.
Import JS Color.

(** Boolean tests of the embedding read as propositions. *)
Ltac reflect_tests :=
  repeat match goal with
         | H : _ && _ = true |- _ => apply andb_prop in H; destruct H
         | H : negb _ = true |- _ => apply negb_true_iff in H
         | H : (_ <=? _) = true |- _ => apply Z.leb_le in H
         | H : (_ <? _) = true |- _ => apply Z.ltb_lt in H
         | H : (_ =? _) = true |- _ => apply Z.eqb_eq in H
         | H : (_ <=? _) = false |- _ => apply Z.leb_gt in H
         | H : (_ <? _) = false |- _ => apply Z.ltb_ge in H
         | H : (_ =? _) = false |- _ => apply Z.eqb_neq in H
         end.

Lemma forallb_bytes (P : Z -> bool) :
  forallb P bytes = true -> forall v, 0 <= v <= 255 -> P v = true.
Proof.
  intros H v Hv.
  rewrite forallb_forall in H. apply H.
  unfold bytes. apply in_map_iff. exists (Z.to_nat v). split.
  - lia.
  - apply in_seq. lia.
Qed.

Lemma isHexDigit_In c : isHexDigit c = true -> In c hexChars.
Proof.
  destruct c as [[] [] [] [] [] [] [] []]; vm_compute; intro H;
    try discriminate H; auto 30.
Qed.

Lemma forallb_hexChars (P : ascii -> bool) :
  forallb P hexChars = true -> forall c, isHexDigit c = true -> P c = true.
Proof.
  intros H c Hc. rewrite forallb_forall in H. apply H, isHexDigit_In, Hc.
Qed.

Lemma hexVal_isHexDigit c v : hexVal c = Some v -> isHexDigit c = true.
Proof. unfold isHexDigit. intros ->. reflexivity. Qed.

Lemma hexDigit_plain c : isHexDigit c = true -> plainDigit c = true.
Proof. apply forallb_hexChars. vm_compute. reflexivity. Qed.

Lemma hexVal_range c v : hexVal c = Some v -> 0 <= v <= 15.
Proof.
  intro H. pose proof (hexDigit_plain c (hexVal_isHexDigit _ _ H)) as P.
  unfold plainDigit in P. rewrite H in P.
  destruct (hexVal (lowerChar c)); [|rewrite andb_false_r in P; discriminate].
  reflect_tests. split; assumption.
Qed.

Lemma hexVal_lower c v : hexVal c = Some v -> hexVal (lowerChar c) = Some v.
Proof.
  intro H. pose proof (hexDigit_plain c (hexVal_isHexDigit _ _ H)) as P.
  unfold plainDigit in P. rewrite H in P.
  destruct (hexVal (lowerChar c)); [|rewrite andb_false_r in P; discriminate].
  reflect_tests. congruence.
Qed.

Lemma hexDigit_tests c :
  isHexDigit c = true ->
  isWhiteSpace c = false /\ Ascii.eqb c "-" = false /\ Ascii.eqb c "+" = false
  /\ Ascii.eqb c "x" = false /\ Ascii.eqb c "X" = false
  /\ Ascii.eqb c "#" = false.
Proof.
  intro H. pose proof (hexDigit_plain c H) as P. unfold plainDigit in P.
  repeat match goal with
         | E : _ && _ = true |- _ => apply andb_prop in E; destruct E
         | E : negb _ = true |- _ => apply negb_true_iff in E
         end.
  auto 10.
Qed.

Lemma safe_small z : Z.abs z <= 9007199254740992 -> safe z = true.
Proof. intro H. unfold safe. apply Z.leb_le, H. Qed.

Lemma ofZ_small z : Z.abs z <= 9007199254740992 -> ofZ z = Int z.
Proof. intro H. unfold ofZ. rewrite safe_small; auto. Qed.

(** [parseInt] on one and on two hexadecimal digits. *)
Lemma parseInt16_byte c1 c2 r :
  byteOf c1 c2 = Some r ->
  parseInt16 (String c1 (String c2 EmptyString)) = Int r /\ 0 <= r <= 255.
Proof.
  unfold byteOf. destruct (hexVal c1) as [a|] eqn:E1; [|discriminate].
  destruct (hexVal c2) as [b|] eqn:E2; [|discriminate].
  intro H. assert (Hr : r = 16 * a + b) by congruence. subst r. clear H.
  pose proof (hexVal_range _ _ E1). pose proof (hexVal_range _ _ E2).
  destruct (hexDigit_tests c1 (hexVal_isHexDigit _ _ E1)) as (W1 & M1 & P1 & _).
  destruct (hexDigit_tests c2 (hexVal_isHexDigit _ _ E2)) as (_ & _ & _ & X2 & Y2 & _).
  split; [|lia].
  unfold parseInt16. cbn [trimStart]. rewrite W1.
  unfold stripSign. rewrite M1, P1.
  unfold strip0x. rewrite X2, Y2. cbn [orb andb].
  rewrite andb_false_r.
  unfold hexPrefix. rewrite E1. cbn [hexPrefixFrom]. rewrite E2.
  apply ofZ_small. lia.
Qed.

Lemma byteOf_lower c1 c2 r :
  byteOf c1 c2 = Some r -> byteOf (lowerChar c1) (lowerChar c2) = Some r.
Proof.
  unfold byteOf. destruct (hexVal c1) as [a|] eqn:E1; [|discriminate].
  destruct (hexVal c2) as [b|] eqn:E2; [|discriminate].
  rewrite (hexVal_lower _ _ E1), (hexVal_lower _ _ E2). auto.
Qed.

Lemma byteOf_tests c1 c2 r :
  byteOf c1 c2 = Some r ->
  isWhiteSpace c1 = false /\ isWhiteSpace c2 = false
  /\ Ascii.eqb c1 "#" = false /\ Ascii.eqb c2 "#" = false.
Proof.
  unfold byteOf. destruct (hexVal c1) as [a|] eqn:E1; [|discriminate].
  destruct (hexVal c2) as [b|] eqn:E2; [|discriminate]. intros _.
  destruct (hexDigit_tests c1 (hexVal_isHexDigit _ _ E1)) as (? & _ & _ & _ & _ & ?).
  destruct (hexDigit_tests c2 (hexVal_isHexDigit _ _ E2)) as (? & _ & _ & _ & _ & ?).
  auto.
Qed.

(** The shape of a string that [channels] decodes. *)
Lemma channels_inv s r g b :
  channels s = Some (r, g, b) ->
  exists c1 c2 c3 c4 c5 c6,
    s = String "#" (String c1 (String c2 (String c3 (String c4 (String c5
          (String c6 EmptyString))))))
    /\ byteOf c1 c2 = Some r /\ byteOf c3 c4 = Some g /\ byteOf c5 c6 = Some b.
Proof.
  destruct s as [|h [|c1 [|c2 [|c3 [|c4 [|c5 [|c6 [|? ?]]]]]]]];
    try discriminate.
  cbn [channels]. destruct (Ascii.eqb h "#") eqn:E; [|discriminate].
  apply Ascii.eqb_eq in E. subst h.
  destruct (byteOf c1 c2) as [r'|] eqn:E1; [|discriminate].
  destruct (byteOf c3 c4) as [g'|] eqn:E2; [|discriminate].
  destruct (byteOf c5 c6) as [b'|] eqn:E3; [|discriminate].
  intro H. injection H as <- <- <-.
  exists c1, c2, c3, c4, c5, c6. auto.
Qed.

Lemma channels_range s r g b :
  channels s = Some (r, g, b) ->
  0 <= r <= 255 /\ 0 <= g <= 255 /\ 0 <= b <= 255.
Proof.
  intro H. destruct (channels_inv _ _ _ _ H)
    as (c1 & c2 & c3 & c4 & c5 & c6 & _ & H1 & H2 & H3).
  apply parseInt16_byte in H1, H2, H3. tauto.
Qed.

(** The representation of numbers, checked on the values the colour
    arithmetic meets: a product or a difference of [Int]s is the double
    that the float operation gives on the same operands. *)
Lemma Int_products_are_float_products v :
  0 <= v <= 255 ->
  forallb (fun k => PrimFloat.eqb (toFloat (mul (Int v) (Int k)))
                                  (Z2f v * Z2f k)%float)
          [299; 587; 114; 256; 65536] = true.
Proof.
  revert v. apply forallb_bytes. vm_compute. reflexivity.
Qed.

Lemma Int_squares_are_float_squares v :
  0 <= v <= 255 ->
  PrimFloat.eqb (toFloat (Math_pow2 (sub (Int 0) (Int v))))
                ((Z2f 0 - Z2f v) * (Z2f 0 - Z2f v))%float = true
  /\ PrimFloat.eqb (toFloat (sub (Int 255) (Int v))) (Z2f 255 - Z2f v)%float
     = true.
Proof.
  intro H.
  assert (E : PrimFloat.eqb (toFloat (Math_pow2 (sub (Int 0) (Int v))))
                ((Z2f 0 - Z2f v) * (Z2f 0 - Z2f v))%float
              && PrimFloat.eqb (toFloat (sub (Int 255) (Int v)))
                   (Z2f 255 - Z2f v)%float = true).
  { revert v H. apply forallb_bytes. vm_compute. reflexivity. }
  apply andb_prop in E. exact E.
Qed.

End JSFacts.

(** ** ThemeEngine *)

Module ThemeEngineFacts.
Import JS Color ThemeEngine JSFacts.

(** How the code takes a [#rrggbb] string apart. *)
Section Shape.

Variables c1 c2 c3 c4 c5 c6 : ascii.

Let hex : string :=
  String c1 (String c2 (String c3 (String c4 (String c5 (String c6 EmptyString))))).

Lemma hashed_not_empty : String.eqb (String "#" hex) EmptyString = false.
Proof. reflexivity. Qed.

Lemma hashed_not_transparent : String.eqb (String "#" hex) "transparent" = false.
Proof. reflexivity. Qed.

Lemma hashed_startsWith : startsWith (String "#" hex) "#" = true.
Proof. reflexivity. Qed.

Lemma hashed_removeFirst : removeFirst "#" (String "#" hex) = hex.
Proof. reflexivity. Qed.

Lemma hex_length : String.length hex = 6%nat.
Proof. reflexivity. Qed.

Lemma hex_substr :
  substr hex 0 2 = String c1 (String c2 EmptyString)
  /\ substr hex 2 2 = String c3 (String c4 EmptyString)
  /\ substr hex 4 2 = String c5 (String c6 EmptyString).
Proof. repeat split. Qed.

End Shape.

(** The three channel values the code reads from a colour. *)
Lemma parse_channels c1 c2 c3 c4 c5 c6 r g b :
  byteOf c1 c2 = Some r -> byteOf c3 c4 = Some g -> byteOf c5 c6 = Some b ->
  let hex := String c1 (String c2 (String c3 (String c4 (String c5
               (String c6 EmptyString))))) in
  parseInt16 (substr hex 0 2) = Int r
  /\ parseInt16 (substr hex 2 2) = Int g
  /\ parseInt16 (substr hex 4 2) = Int b.
Proof.
  intros H1 H2 H3. cbv zeta.
  destruct (hex_substr c1 c2 c3 c4 c5 c6) as (-> & -> & ->).
  apply parseInt16_byte in H1, H2, H3. tauto.
Qed.

Lemma isLightColor_channels s r g b :
  channels s = Some (r, g, b) ->
  isLightColor s = gt (brightness (Int r) (Int g) (Int b)) (Int 155).
Proof.
  intro H. destruct (channels_inv _ _ _ _ H)
    as (c1 & c2 & c3 & c4 & c5 & c6 & -> & H1 & H2 & H3).
  destruct (parse_channels _ _ _ _ _ _ _ _ _ H1 H2 H3) as (P1 & P2 & P3).
  unfold isLightColor.
  rewrite hashed_not_empty, hashed_not_transparent, hashed_startsWith.
  cbn [orb slice1]. rewrite P1, P2, P3. reflexivity.
Qed.

(** C4 (the behaviour of the code): on every [#rrggbb] background the
    classification is light exactly when
    [(R * 299 + G * 587 + B * 114) / 1000 > 155], and the text colour
    returned is white for a light background and [#2d3748] for a
    background that is not light, the reverse of what the claim asks. *)
Theorem getContrastingTextColor_inverted s r g b :
  channels s = Some (r, g, b) ->
  isLightColor s = gt (brightness (Int r) (Int g) (Int b)) (Int 155)
  /\ getContrastingTextColor s =
       (if gt (brightness (Int r) (Int g) (Int b)) (Int 155)
        then "#ffffff" else "#2d3748").
Proof.
  intro H. split.
  - apply isLightColor_channels, H.
  - unfold getContrastingTextColor.
    rewrite (isLightColor_channels _ _ _ _ H). reflexivity.
Qed.

Lemma getContrastingTextColor_inverted_witness :
  channels "#ffffff" = Some (255, 255, 255)
  /\ getContrastingTextColor "#ffffff" = "#ffffff"
  /\ getContrastingTextColor "#000000" = "#2d3748".
Proof.
  split; [reflexivity|]. split.
  - destruct (getContrastingTextColor_inverted "#ffffff" 255 255 255 eq_refl)
      as [_ ->]. reflexivity.
  - destruct (getContrastingTextColor_inverted "#000000" 0 0 0 eq_refl)
      as [_ ->]. reflexivity.
Defined.

(** *** Validation of the primary colour *)

Lemma trimEnd_keeps s :
  (forall c, In c (list_ascii_of_string s) -> isWhiteSpace c = false) ->
  trimEnd s = s.
Proof.
  induction s as [|c r IH]; intro H; [reflexivity|].
  cbn [trimEnd]. rewrite IH.
  - destruct r; [|reflexivity].
    rewrite (H c); [reflexivity|]. left. reflexivity.
  - intros d Hd. apply H. right. exact Hd.
Qed.

(** Lower-casing and trimming keep a colour a colour with the same
    channels. *)
Lemma normalized_channels s r g b :
  channels s = Some (r, g, b) ->
  channels (trim (toLowerCase s)) = Some (r, g, b).
Proof.
  intro H. destruct (channels_inv _ _ _ _ H)
    as (c1 & c2 & c3 & c4 & c5 & c6 & -> & H1 & H2 & H3).
  apply byteOf_lower in H1, H2, H3.
  destruct (byteOf_tests _ _ _ H1) as (W1 & W2 & _).
  destruct (byteOf_tests _ _ _ H2) as (W3 & W4 & _).
  destruct (byteOf_tests _ _ _ H3) as (W5 & W6 & _).
  cbn [toLowerCase]. change (lowerChar "#") with "#"%char.
  unfold trim. cbn [trimStart]. change (isWhiteSpace "#") with false.
  cbv iota. rewrite trimEnd_keeps.
  - cbn [channels]. change (Ascii.eqb "#" "#") with true. cbv iota.
    rewrite H1, H2, H3. reflexivity.
  - cbn [list_ascii_of_string In]. intros c Hc.
    repeat (destruct Hc as [<- | Hc]; [assumption || reflexivity|]).
    destruct Hc.
Qed.

Section Validators.

Variables (s : string) (r g b : Z).
Hypothesis Hs : channels s = Some (r, g, b).

Lemma isColorTooLight_channels :
  isColorTooLight s = gt (luminance (Int r) (Int g) (Int b)) (Flt 0.9).
Proof.
  destruct (channels_inv _ _ _ _ Hs)
    as (c1 & c2 & c3 & c4 & c5 & c6 & -> & H1 & H2 & H3).
  destruct (parse_channels _ _ _ _ _ _ _ _ _ H1 H2 H3) as (P1 & P2 & P3).
  unfold isColorTooLight. rewrite hashed_removeFirst, hex_length.
  cbn [Nat.eqb negb]. rewrite P1, P2, P3. reflexivity.
Qed.

Lemma isColorTooDark_channels :
  isColorTooDark s = lt (luminance (Int r) (Int g) (Int b)) (Flt 0.1).
Proof.
  destruct (channels_inv _ _ _ _ Hs)
    as (c1 & c2 & c3 & c4 & c5 & c6 & -> & H1 & H2 & H3).
  destruct (parse_channels _ _ _ _ _ _ _ _ _ H1 H2 H3) as (P1 & P2 & P3).
  unfold isColorTooDark. rewrite hashed_removeFirst, hex_length.
  cbn [Nat.eqb negb]. rewrite P1, P2, P3. reflexivity.
Qed.

Lemma hasGoodSaturation_channels :
  hasGoodSaturation s = gt (saturation (Int r) (Int g) (Int b)) (Flt 0.15).
Proof.
  destruct (channels_inv _ _ _ _ Hs)
    as (c1 & c2 & c3 & c4 & c5 & c6 & -> & H1 & H2 & H3).
  destruct (parse_channels _ _ _ _ _ _ _ _ _ H1 H2 H3) as (P1 & P2 & P3).
  unfold hasGoodSaturation. rewrite hashed_removeFirst, hex_length.
  cbn [Nat.eqb negb]. rewrite P1, P2, P3. reflexivity.
Qed.

End Validators.

Lemma channels_not_empty s r g b :
  channels s = Some (r, g, b) -> String.eqb s EmptyString = false.
Proof. destruct s; [discriminate | reflexivity]. Qed.

(** Validation of a colour, in terms of its channels. *)
Lemma isWebsiteSpecificColor_channels s r g b :
  channels s = Some (r, g, b) ->
  isWebsiteSpecificColor s =
    negb (includes genericColors (trim (toLowerCase s)))
    && negb (gt (luminance (Int r) (Int g) (Int b)) (Flt 0.9)
             || lt (luminance (Int r) (Int g) (Int b)) (Flt 0.1))
    && gt (saturation (Int r) (Int g) (Int b)) (Flt 0.15).
Proof.
  intro H. pose proof (normalized_channels _ _ _ _ H) as N.
  unfold isWebsiteSpecificColor.
  rewrite (channels_not_empty _ _ _ _ H).
  rewrite (isColorTooLight_channels _ _ _ _ N), (isColorTooDark_channels _ _ _ _ N),
    (hasGoodSaturation_channels _ _ _ _ N).
  destruct (includes genericColors (trim (toLowerCase s))); [reflexivity|].
  destruct (gt (luminance (Int r) (Int g) (Int b)) (Flt 0.9)
            || lt (luminance (Int r) (Int g) (Int b)) (Flt 0.1)); reflexivity.
Qed.

Lemma generic_rejected s :
  In s genericColors -> isWebsiteSpecificColor s = false.
Proof.
  intro H. cbn [genericColors In] in H.
  repeat (destruct H as [<- | H]; [vm_compute; reflexivity|]).
  destruct H.
Qed.

(** C1: when the primary colour of the extracted theme is absent, is
    one of the generic colours, has luminance
    [(0.299 R + 0.587 G + 0.114 B) / 255] above 0.9 or below 0.1, or has
    saturation [(max - min) / max] not above 0.15, [getThemeColors] with
    theme style [website] returns the default palette. *)
Theorem getThemeColors_default_on_rejected_primary
    (theme : ExtractedTheme) (cs : Extracted.Colors) :
  colors theme = Some cs ->
  (falsy (Extracted.primary cs) = true
   \/ exists s, Extracted.primary cs = Some s
        /\ (In s genericColors
            \/ exists r g b, channels s = Some (r, g, b)
                 /\ (gt (luminance (Int r) (Int g) (Int b)) (Flt 0.9) = true
                     \/ lt (luminance (Int r) (Int g) (Int b)) (Flt 0.1) = true
                     \/ gt (saturation (Int r) (Int g) (Int b)) (Flt 0.15)
                          = false))) ->
  getThemeColors "website" (Some theme) = getDefaultThemeColors.
Proof.
  intros Hc H. unfold getThemeColors. rewrite Hc.
  change (String.eqb "website" "website") with true. cbv iota.
  destruct H as [H | (s & Hs & H)].
  - destruct (Extracted.primary cs) as [p|]; [|reflexivity].
    cbn [falsy] in H. rewrite H. reflexivity.
  - rewrite Hs.
    assert (R : isWebsiteSpecificColor s = false).
    { destruct H as [H | (r & g & b & Hch & H)].
      - apply generic_rejected, H.
      - rewrite (isWebsiteSpecificColor_channels _ _ _ _ Hch).
        destruct H as [H | [H | H]]; rewrite H.
        + rewrite andb_false_r. reflexivity.
        + rewrite orb_true_r, andb_false_r. reflexivity.
        + apply andb_false_r. }
    rewrite R, andb_false_r. reflexivity.
Qed.

Lemma getThemeColors_default_on_rejected_primary_witness :
  getThemeColors "website"
    (Some {| colors := Some (PlainTheme.onlyPrimary "#fefefe") |})
  = getDefaultThemeColors.
Proof.
  apply (getThemeColors_default_on_rejected_primary _
           (PlainTheme.onlyPrimary "#fefefe")); [reflexivity|].
  right. exists "#fefefe". split; [reflexivity|].
  right. exists 254, 254, 254. split; [reflexivity|].
  left. vm_compute. reflexivity.
Defined.

(** *** The colour transforms on malformed input *)

Lemma length_append (s t : string) :
  String.length (s ++ t) = (String.length s + String.length t)%nat.
Proof. induction s as [|c r IH]; cbn; [reflexivity | rewrite IH; reflexivity]. Qed.

Lemma replicate_length n c : String.length (replicate n c) = n.
Proof. induction n as [|k IH]; cbn; [reflexivity | rewrite IH; reflexivity]. Qed.

Lemma padStart_length s c : (2 <= String.length (padStart s 2 c))%nat.
Proof.
  unfold padStart. rewrite length_append, replicate_length. lia.
Qed.

(** The template of [darkenColor] and [lightenColor] prints at least
    seven characters. *)
Lemma hexString_length x y z : (7 <= String.length (hexString x y z))%nat.
Proof.
  unfold hexString. rewrite !length_append.
  pose proof (padStart_length (toString16 x) "0").
  pose proof (padStart_length (toString16 y) "0").
  pose proof (padStart_length (toString16 z) "0").
  cbn [String.length]. lia.
Qed.

Lemma startsWith_not_empty color :
  startsWith color "#" = true -> String.eqb color EmptyString = false.
Proof. destruct color; [discriminate | reflexivity]. Qed.

(** C5 (as the code behaves): an input that does not start with [#],
    the empty string included, is returned unchanged by each of the
    three transforms, whatever the percentage.  An input that starts
    with [#] is not checked further: [darkenColor] and [lightenColor]
    print [#] and three channels of at least two characters each, so an
    input of fewer than seven characters is never returned unchanged. *)
Theorem transforms_keep_unhashed_input (color : string) (percent : Number) :
  (startsWith color "#" = false ->
   darkenColor color percent = color
   /\ lightenColor color percent = color
   /\ adjustColorBrightness color percent = color)
  /\ (startsWith color "#" = true ->
      (String.length color < 7)%nat ->
      darkenColor color percent <> color
      /\ lightenColor color percent <> color).
Proof.
  split.
  - intro H. unfold darkenColor, lightenColor, adjustColorBrightness.
    rewrite H. cbn [negb]. rewrite orb_true_r. auto.
  - intros H L. pose proof (startsWith_not_empty _ H) as N.
    unfold darkenColor, lightenColor. rewrite H, N. cbn [negb orb].
    split; intro E;
      match type of E with
      | hexString ?x ?y ?z = _ =>
          pose proof (hexString_length x y z) as G; rewrite E in G
      end; lia.
Qed.

Lemma transforms_keep_unhashed_input_witness :
  (darkenColor "ff6600" (Int 20) = "ff6600"
   /\ lightenColor "ff6600" (Int 20) = "ff6600"
   /\ adjustColorBrightness "ff6600" (Int 20) = "ff6600")
  /\ (darkenColor "#abc" (Int 20) <> "#abc"
      /\ lightenColor "#abc" (Int 20) <> "#abc").
Proof.
  split.
  - apply (proj1 (transforms_keep_unhashed_input "ff6600" (Int 20))).
    reflexivity.
  - apply (proj2 (transforms_keep_unhashed_input "#abc" (Int 20))).
    + reflexivity.
    + cbn [String.length]. lia.
Defined.

(** A three-digit colour starts with [#], so it is transformed: the
    missing blue digits parse to NaN and are printed as such. *)
Lemma transforms_change_short_hex :
  darkenColor "#abc" (Int 20) = "#890aNaN"
  /\ lightenColor "#abc" (Int 20) = "#bc3dNaN"
  /\ adjustColorBrightness "#abc" (Int 20) = "#333def"
  /\ darkenColor "#abc" (Int 20) <> "#abc".
Proof.
  assert (D : darkenColor "#abc" (Int 20) = "#890aNaN") by (vm_compute; reflexivity).
  repeat split; try (vm_compute; reflexivity).
  rewrite D. discriminate.
Qed.

(** *** The accessibility pass *)

Lemma accessible_constants :
  isLightColor "#2d3748" = false /\ isLightColor "#f7fafc" = true
  /\ isLightColor "#f8f9fa" = true /\ isLightColor "#e2e8f0" = true.
Proof. repeat split; vm_compute; reflexivity. Qed.

Ltac split_ifs :=
  repeat match goal with
         | |- context [if ?c then _ else _] => destruct c
         end.

Ltac palette_fields :=
  cbn [Palette.primary Palette.primaryDark Palette.primaryLight
       Palette.secondary Palette.background Palette.text Palette.border
       Palette.button Palette.link Palette.accent Palette.userBg
       Palette.botBg Palette.headerBg Palette.headerText
       Palette.setText Palette.setBotBg Palette.setPrimary] in *.

Lemma setText_same p : Palette.setText (Palette.text p) p = p.
Proof. destruct p. reflexivity. Qed.

Lemma setBotBg_same p : Palette.setBotBg (Palette.botBg p) p = p.
Proof. destruct p. reflexivity. Qed.

Lemma setPrimary_same p : Palette.setPrimary (Palette.primary p) p = p.
Proof. destruct p. reflexivity. Qed.

(** What each check leaves. *)
Lemma contrastText_spec p :
  exists t, contrastText p = Palette.setText t p
    /\ isLightColor t = negb (isLightColor (Palette.background p)).
Proof.
  destruct accessible_constants as (K1 & K2 & _).
  unfold contrastText, isDarkColor.
  destruct (isLightColor (Palette.background p)) eqn:B,
           (isLightColor (Palette.text p)) eqn:T; cbn [andb negb].
  - exists "#2d3748". auto.
  - exists (Palette.text p). rewrite setText_same. auto.
  - exists (Palette.text p). rewrite setText_same. auto.
  - exists "#f7fafc". auto.
Qed.

Lemma contrastBotBg_spec p :
  exists c, contrastBotBg p = Palette.setBotBg c p
    /\ ((c = "#f8f9fa" /\ isLightColor (Palette.text p) = true)
        \/ isLightColor c = negb (isLightColor (Palette.text p))).
Proof.
  destruct accessible_constants as (_ & _ & K3 & K4).
  unfold contrastBotBg, isDarkColor.
  destruct (isLightColor (Palette.botBg p)) eqn:B,
           (isLightColor (Palette.text p)) eqn:T; cbn [andb negb].
  - exists "#f8f9fa". auto.
  - exists (Palette.botBg p). rewrite setBotBg_same. auto.
  - exists (Palette.botBg p). rewrite setBotBg_same. auto.
  - exists "#e2e8f0". auto.
Qed.

Lemma distinctPrimary_spec p :
  exists c, distinctPrimary p = Palette.setPrimary c p
    /\ (isColorTooSimilar c (Palette.background p) = true ->
        c = if isLightColor (Palette.background p) then "#4299e1" else "#63b3ed").
Proof.
  unfold distinctPrimary.
  destruct (isColorTooSimilar (Palette.primary p) (Palette.background p)) eqn:S.
  - eexists. split; [reflexivity | auto].
  - exists (Palette.primary p). rewrite setPrimary_same. split; [reflexivity|].
    rewrite S. discriminate.
Qed.

(** A palette that already meets a check is left as it is. *)
Lemma contrastText_stable p :
  isLightColor (Palette.text p) = negb (isLightColor (Palette.background p)) ->
  contrastText p = p.
Proof.
  intro H. unfold contrastText, isDarkColor. rewrite H.
  destruct (isLightColor (Palette.background p)); reflexivity.
Qed.

Lemma contrastBotBg_stable p :
  (Palette.botBg p = "#f8f9fa" /\ isLightColor (Palette.text p) = true)
  \/ isLightColor (Palette.botBg p) = negb (isLightColor (Palette.text p)) ->
  contrastBotBg p = p.
Proof.
  destruct accessible_constants as (_ & _ & K3 & _).
  intros [[B T] | H]; unfold contrastBotBg, isDarkColor.
  - rewrite T, B, K3. cbn [andb]. rewrite <- B. apply setBotBg_same.
  - rewrite H. destruct (isLightColor (Palette.text p)); reflexivity.
Qed.

Lemma distinctPrimary_stable p :
  (isColorTooSimilar (Palette.primary p) (Palette.background p) = true ->
   Palette.primary p =
     if isLightColor (Palette.background p) then "#4299e1" else "#63b3ed") ->
  distinctPrimary p = p.
Proof.
  intro H. unfold distinctPrimary.
  destruct (isColorTooSimilar (Palette.primary p) (Palette.background p));
    [|reflexivity].
  rewrite <- H by reflexivity. apply setPrimary_same.
Qed.

(** The pass as three updates of the record. *)
Lemma ensureAccessibleColors_shape p :
  exists t c q,
    ensureAccessibleColors p
    = Palette.setPrimary q (Palette.setBotBg c (Palette.setText t p))
    /\ isLightColor t = negb (isLightColor (Palette.background p))
    /\ ((c = "#f8f9fa" /\ isLightColor t = true)
        \/ isLightColor c = negb (isLightColor t))
    /\ (isColorTooSimilar q (Palette.background p) = true ->
        q = if isLightColor (Palette.background p) then "#4299e1" else "#63b3ed").
Proof.
  unfold ensureAccessibleColors.
  destruct (contrastText_spec p) as (t & -> & Ht).
  destruct (contrastBotBg_spec (Palette.setText t p)) as (c & -> & Hc).
  destruct (distinctPrimary_spec (Palette.setBotBg c (Palette.setText t p)))
    as (q & -> & Hq).
  exists t, c, q. destruct p. palette_fields. auto.
Qed.

(** C8: the accessibility pass is idempotent. *)
Theorem ensureAccessibleColors_idempotent (p : Palette.t) :
  ensureAccessibleColors (ensureAccessibleColors p) = ensureAccessibleColors p.
Proof.
  destruct (ensureAccessibleColors_shape p) as (t & c & q & -> & Ht & Hc & Hq).
  unfold ensureAccessibleColors.
  rewrite contrastText_stable, contrastBotBg_stable, distinctPrimary_stable;
    try reflexivity; destruct p; palette_fields; assumption.
Qed.

(** C3 (where the code fails it): on a dark background with a light
    text, a light bot background is replaced by [#f8f9fa], which is
    light again, so the text and the bot background are both light
    after the pass. *)
Theorem ensureAccessibleColors_keeps_light_botBg (p : Palette.t) :
  isLightColor (Palette.background p) = false ->
  isLightColor (Palette.text p) = true ->
  isLightColor (Palette.botBg p) = true ->
  let q := ensureAccessibleColors p in
  Palette.text q = Palette.text p
  /\ Palette.botBg q = "#f8f9fa"
  /\ isLightColor (Palette.text q) = true
  /\ isLightColor (Palette.botBg q) = true.
Proof.
  destruct accessible_constants as (_ & _ & K3 & _).
  intros Hbg Htx Hbb. cbv zeta. unfold ensureAccessibleColors.
  rewrite (contrastText_stable p) by (rewrite Htx, Hbg; reflexivity).
  assert (E : contrastBotBg p = Palette.setBotBg "#f8f9fa" p).
  { unfold contrastBotBg. rewrite Hbb, Htx. reflexivity. }
  rewrite E.
  destruct (distinctPrimary_spec (Palette.setBotBg "#f8f9fa" p)) as (c & -> & _).
  destruct p. palette_fields. auto.
Qed.

Lemma ensureAccessibleColors_keeps_light_botBg_witness :
  let q := ensureAccessibleColors
             (buildThemeColors
                {| Extracted.primary := Some "#ff6600";
                   Extracted.secondary := None;
                   Extracted.background := Some "#000000";
                   Extracted.text := Some "#ffffff";
                   Extracted.border := None; Extracted.button := None;
                   Extracted.link := None; Extracted.accent := None |}
                "#ff6600") in
  Palette.text q = "#ffffff" /\ Palette.botBg q = "#f8f9fa"
  /\ isLightColor (Palette.text q) = true
  /\ isLightColor (Palette.botBg q) = true.
Proof.
  apply (ensureAccessibleColors_keeps_light_botBg
           (buildThemeColors
              {| Extracted.primary := Some "#ff6600";
                 Extracted.secondary := None;
                 Extracted.background := Some "#000000";
                 Extracted.text := Some "#ffffff";
                 Extracted.border := None; Extracted.button := None;
                 Extracted.link := None; Extracted.accent := None |}
              "#ff6600")); vm_compute; reflexivity.
Defined.

(** *** The gamut of the derived palette *)

Lemma darkenColor_channels s r g b percent :
  channels s = Some (r, g, b) ->
  darkenColor s percent =
    hexString (darkenChannel percent r) (darkenChannel percent g)
              (darkenChannel percent b).
Proof.
  intro H. destruct (channels_inv _ _ _ _ H)
    as (c1 & c2 & c3 & c4 & c5 & c6 & -> & H1 & H2 & H3).
  destruct (parse_channels _ _ _ _ _ _ _ _ _ H1 H2 H3) as (P1 & P2 & P3).
  unfold darkenColor. rewrite hashed_not_empty, hashed_startsWith.
  cbn [orb negb slice1]. rewrite P1, P2, P3. reflexivity.
Qed.

Lemma lightenColor_channels s r g b percent :
  channels s = Some (r, g, b) ->
  lightenColor s percent =
    hexString (lightenChannel percent r) (lightenChannel percent g)
              (lightenChannel percent b).
Proof.
  intro H. destruct (channels_inv _ _ _ _ H)
    as (c1 & c2 & c3 & c4 & c5 & c6 & -> & H1 & H2 & H3).
  destruct (parse_channels _ _ _ _ _ _ _ _ _ H1 H2 H3) as (P1 & P2 & P3).
  unfold lightenColor. rewrite hashed_not_empty, hashed_startsWith.
  cbn [orb negb slice1]. rewrite P1, P2, P3. reflexivity.
Qed.

Lemma byteOf_byteHex v :
  0 <= v <= 255 ->
  byteOf (digitChar (v / 16)) (digitChar (v mod 16)) = Some v.
Proof.
  intro H.
  assert (E : match byteOf (digitChar (v / 16)) (digitChar (v mod 16)) with
              | Some w => w =? v
              | None => false
              end = true).
  { revert v H. apply forallb_bytes. vm_compute. reflexivity. }
  destruct (byteOf _ _); [|discriminate]. apply Z.eqb_eq in E. congruence.
Qed.

Lemma channels_byteHex r g b :
  0 <= r <= 255 -> 0 <= g <= 255 -> 0 <= b <= 255 ->
  channels ("#" ++ byteHex r ++ byteHex g ++ byteHex b) = Some (r, g, b).
Proof.
  intros Hr Hg Hb. unfold byteHex. cbn [String.append channels].
  change (Ascii.eqb "#" "#") with true. cbv iota.
  rewrite !byteOf_byteHex by assumption. reflexivity.
Qed.

Lemma printsAsByte_inv x :
  printsAsByte x = true ->
  exists z, x = Int z /\ 0 <= z <= 255
    /\ padStart (toString16 x) 2 "0" = byteHex z.
Proof.
  destruct x as [z|f]; [|discriminate]. unfold printsAsByte. intro H.
  apply andb_prop in H. destruct H as [H E]. apply String.eqb_eq in E.
  apply andb_prop in H. destruct H as [H1 H2].
  apply Z.leb_le in H1, H2. exists z. auto.
Qed.

Lemma hexString_inGamut x y z :
  printsAsByte x = true -> printsAsByte y = true -> printsAsByte z = true ->
  inGamut (hexString x y z).
Proof.
  intros Hx Hy Hz.
  destruct (printsAsByte_inv _ Hx) as (r & _ & Hr & Er).
  destruct (printsAsByte_inv _ Hy) as (g & _ & Hg & Eg).
  destruct (printsAsByte_inv _ Hz) as (b & _ & Hb & Eb).
  unfold hexString. rewrite Er, Eg, Eb.
  exists r, g, b. split; [apply channels_byteHex; assumption | auto].
Qed.

Lemma darkenChannel_20 v : 0 <= v <= 255 ->
  printsAsByte (darkenChannel (Int 20) v) = true.
Proof. revert v. apply forallb_bytes. vm_compute. reflexivity. Qed.

Lemma lightenChannel_20 v : 0 <= v <= 255 ->
  printsAsByte (lightenChannel (Int 20) v) = true.
Proof. revert v. apply forallb_bytes. vm_compute. reflexivity. Qed.

Lemma lightenChannel_60 v : 0 <= v <= 255 ->
  printsAsByte (lightenChannel (Int 60) v) = true.
Proof. revert v. apply forallb_bytes. vm_compute. reflexivity. Qed.

Lemma lightenChannel_75 v : 0 <= v <= 255 ->
  printsAsByte (lightenChannel (Int 75) v) = true.
Proof. revert v. apply forallb_bytes. vm_compute. reflexivity. Qed.

Lemma channels_inGamut s : channels s <> None -> inGamut s.
Proof.
  destruct (channels s) as [[[r g] b]|] eqn:E; [|congruence]. intros _.
  exists r, g, b. split; [exact E | apply (channels_range _ _ _ _ E)].
Qed.

Lemma darkenColor_inGamut s : channels s <> None -> inGamut (darkenColor s (Int 20)).
Proof.
  destruct (channels s) as [[[r g] b]|] eqn:E; [|congruence]. intros _.
  destruct (channels_range _ _ _ _ E) as (Hr & Hg & Hb).
  rewrite (darkenColor_channels _ _ _ _ _ E).
  apply hexString_inGamut; apply darkenChannel_20; assumption.
Qed.

Lemma lightenColor_inGamut s percent :
  (forall v, 0 <= v <= 255 -> printsAsByte (lightenChannel percent v) = true) ->
  channels s <> None -> inGamut (lightenColor s percent).
Proof.
  intro P. destruct (channels s) as [[[r g] b]|] eqn:E; [|congruence]. intros _.
  destruct (channels_range _ _ _ _ E) as (Hr & Hg & Hb).
  rewrite (lightenColor_channels _ _ _ _ _ E).
  apply hexString_inGamut; apply P; assumption.
Qed.

(** [adjustColorBrightness]: the parsed number, its three bytes, and
    the number printed back. *)
Lemma byteOf_inv c1 c2 r :
  byteOf c1 c2 = Some r ->
  exists a b, hexVal c1 = Some a /\ hexVal c2 = Some b /\ r = 16 * a + b
    /\ 0 <= a <= 15 /\ 0 <= b <= 15.
Proof.
  unfold byteOf. destruct (hexVal c1) as [a|] eqn:E1; [|discriminate].
  destruct (hexVal c2) as [b|] eqn:E2; [|discriminate].
  intro H. exists a, b.
  pose proof (hexVal_range _ _ E1). pose proof (hexVal_range _ _ E2).
  repeat split; try tauto. congruence.
Qed.

Lemma parseInt16_hex6 c1 c2 c3 c4 c5 c6 r g b :
  byteOf c1 c2 = Some r -> byteOf c3 c4 = Some g -> byteOf c5 c6 = Some b ->
  parseInt16 (String c1 (String c2 (String c3 (String c4 (String c5
                (String c6 EmptyString))))))
  = Int (r * 65536 + g * 256 + b).
Proof.
  intros H1 H2 H3.
  destruct (byteOf_inv _ _ _ H1) as (v1 & v2 & E1 & E2 & -> & B1 & B2).
  destruct (byteOf_inv _ _ _ H2) as (v3 & v4 & E3 & E4 & -> & B3 & B4).
  destruct (byteOf_inv _ _ _ H3) as (v5 & v6 & E5 & E6 & -> & B5 & B6).
  destruct (hexDigit_tests c1 (hexVal_isHexDigit _ _ E1)) as (W1 & M1 & P1 & _).
  destruct (hexDigit_tests c2 (hexVal_isHexDigit _ _ E2)) as (_ & _ & _ & X2 & Y2 & _).
  unfold parseInt16. cbn [trimStart]. rewrite W1.
  unfold stripSign. rewrite M1, P1.
  unfold strip0x. rewrite X2, Y2. cbn [orb]. rewrite andb_false_r.
  unfold hexPrefix. rewrite E1.
  cbn [hexPrefixFrom]. rewrite E2.
  cbn [hexPrefixFrom]. rewrite E3.
  cbn [hexPrefixFrom]. rewrite E4.
  cbn [hexPrefixFrom]. rewrite E5.
  cbn [hexPrefixFrom]. rewrite E6.
  cbn [hexPrefixFrom].
  clear - B1 B2 B3 B4 B5 B6.
  rewrite ofZ_small by lia. f_equal. lia.
Qed.

Lemma add_Int x y :
  Z.abs (x + y) <= 9007199254740992 -> add (Int x) (Int y) = Int (x + y).
Proof. intro H. unfold add. rewrite safe_small by exact H. reflexivity. Qed.

Lemma mul_Int x y :
  0 <= x -> 0 <= y -> x * y <= 9007199254740992 ->
  mul (Int x) (Int y) = Int (x * y).
Proof.
  intros Hx Hy H. unfold mul. rewrite safe_small by nia.
  apply Z.leb_le in Hx, Hy. rewrite Hx, Hy, orb_true_r. reflexivity.
Qed.

Lemma div_mod_unique a b q r :
  0 <= r < b -> a = b * q + r -> a / b = q /\ a mod b = r.
Proof.
  intros Hr E. split; symmetry.
  - apply (Z.div_unique_pos a b q r); assumption.
  - apply (Z.mod_unique_pos a b q r); assumption.
Qed.

Lemma packed_bytes r g b :
  0 <= r <= 255 -> 0 <= g <= 255 -> 0 <= b <= 255 ->
  let num := Int (r * 65536 + g * 256 + b) in
  shr num 16 = Int r
  /\ band (shr num 8) (Int 255) = Int g
  /\ band num (Int 255) = Int b.
Proof.
  intros Hr Hg Hb. cbv zeta. unfold band, shr, toInt32.
  assert (W : forall z, 0 <= z < 2147483648 -> wrap32 z = z).
  { intros z Hz. unfold wrap32. rewrite Z.mod_small by lia. lia. }
  rewrite (W (r * 65536 + g * 256 + b)) by lia.
  rewrite !Z.shiftr_div_pow2 by lia.
  change (2 ^ 16) with 65536. change (2 ^ 8) with 256.
  assert (D1 : (r * 65536 + g * 256 + b) / 65536 = r)
    by (apply (div_mod_unique _ 65536 r (g * 256 + b)); lia).
  assert (D2 : (r * 65536 + g * 256 + b) / 256 = r * 256 + g)
    by (apply (div_mod_unique _ 256 (r * 256 + g) b); lia).
  rewrite D1, D2. rewrite (W (r * 256 + g)), (W 255) by lia.
  change 255 with (Z.ones 8). rewrite !Z.land_ones by lia.
  change (2 ^ 8) with 256.
  assert (M1 : (r * 256 + g) mod 256 = g)
    by (apply (div_mod_unique _ 256 r g); lia).
  assert (M2 : (r * 65536 + g * 256 + b) mod 256 = b)
    by (apply (div_mod_unique _ 256 (r * 256 + g) b); lia).
  rewrite M1, M2, !W by lia. auto.
Qed.

Lemma hexDigitsOf_step k q d :
  1 <= q -> 0 <= d < 16 ->
  hexDigitsOf (S k) (16 * q + d)
  = hexDigitsOf k q ++ String (digitChar d) EmptyString.
Proof.
  intros Hq Hd. cbn [hexDigitsOf].
  assert (L : (16 * q + d <? 16) = false) by (apply Z.ltb_ge; lia).
  destruct (div_mod_unique (16 * q + d) 16 q d Hd eq_refl) as [D M].
  rewrite L, D, M. reflexivity.
Qed.

Lemma toString16_packed r g b :
  0 <= r <= 255 -> 0 <= g <= 255 -> 0 <= b <= 255 ->
  toString16 (Int (16777216 + r * 65536 + g * 256 + b))
  = String "1" (byteHex r ++ byteHex g ++ byteHex b).
Proof.
  intros Hr Hg Hb. unfold toString16, intToString16.
  assert (L : (16777216 + r * 65536 + g * 256 + b <? 0) = false)
    by (apply Z.ltb_ge; lia).
  rewrite L. unfold toHex.
  assert (G : Z.log2 (16777216 + r * 65536 + g * 256 + b) = 24).
  { apply Z.log2_unique; [lia|]. change (2 ^ 24) with 16777216.
    change (2 ^ Z.succ 24) with 33554432. lia. }
  rewrite G.
  assert (N : forall v, 0 <= v <= 255 ->
            v = 16 * (v / 16) + v mod 16 /\ 0 <= v / 16 <= 15
            /\ 0 <= v mod 16 < 16).
  { intros v Hv. pose proof (Z.div_mod v 16). pose proof (Z.mod_pos_bound v 16).
    assert (0 <= v / 16) by (apply Z.div_pos; lia).
    assert (v / 16 < 16) by (apply Z.div_lt_upper_bound; lia).
    lia. }
  destruct (N r Hr) as (Er & Hr1 & Hr0).
  destruct (N g Hg) as (Eg & Hg1 & Hg0).
  destruct (N b Hb) as (Eb & Hb1 & Hb0).
  unfold byteHex.
  revert Er Eg Eb Hr1 Hr0 Hg1 Hg0 Hb1 Hb0.
  generalize (r / 16) (r mod 16) (g / 16) (g mod 16) (b / 16) (b mod 16).
  intros r1 r0 g1 g0 b1 b0 Er Eg Eb Hr1 Hr0 Hg1 Hg0 Hb1 Hb0.
  replace (16777216 + r * 65536 + g * 256 + b)
    with (16 * (16 * (16 * (16 * (16 * (16 * 1 + r1) + r0) + g1) + g0) + b1) + b0)
    by lia.
  change (S (Z.to_nat 24)) with (S (S (S (S (S (S (S 18%nat))))))).
  rewrite !hexDigitsOf_step by lia.
  reflexivity.
Qed.

Lemma adjustColorBrightness_channels s r g b percent :
  channels s = Some (r, g, b) ->
  adjustColorBrightness s percent =
    "#" ++ slice1 (toString16
      (add (add (add (Int 16777216) (mul (adjustChannel percent r) (Int 65536)))
                (mul (adjustChannel percent g) (Int 256)))
           (adjustChannel percent b))).
Proof.
  intro H. destruct (channels_inv _ _ _ _ H)
    as (c1 & c2 & c3 & c4 & c5 & c6 & -> & H1 & H2 & H3).
  destruct (channels_range _ _ _ _ H) as (Hr & Hg & Hb).
  unfold adjustColorBrightness.
  rewrite hashed_not_empty, hashed_startsWith, hashed_removeFirst.
  cbn [orb negb]. rewrite (parseInt16_hex6 _ _ _ _ _ _ _ _ _ H1 H2 H3).
  destruct (packed_bytes r g b Hr Hg Hb) as (-> & -> & ->).
  reflexivity.
Qed.

Lemma isByte_inv x : isByte x = true -> exists z, x = Int z /\ 0 <= z <= 255.
Proof.
  destruct x as [z|f]; [|discriminate]. cbn [isByte]. intro H.
  apply andb_prop in H. destruct H as [H1 H2]. apply Z.leb_le in H1, H2.
  exists z. auto.
Qed.

Lemma adjustColorBrightness_inGamut s percent :
  (forall v, 0 <= v <= 255 -> isByte (adjustChannel percent v) = true) ->
  channels s <> None -> inGamut (adjustColorBrightness s percent).
Proof.
  intro P. destruct (channels s) as [[[r g] b]|] eqn:E; [|congruence]. intros _.
  destruct (channels_range _ _ _ _ E) as (Hr & Hg & Hb).
  rewrite (adjustColorBrightness_channels _ _ _ _ _ E).
  destruct (isByte_inv _ (P r Hr)) as (r' & -> & Hr').
  destruct (isByte_inv _ (P g Hg)) as (g' & -> & Hg').
  destruct (isByte_inv _ (P b Hb)) as (b' & -> & Hb').
  rewrite !mul_Int by lia. rewrite !add_Int by lia.
  rewrite toString16_packed by assumption. cbn [slice1].
  exists r', g', b'. split; [apply channels_byteHex; assumption | auto].
Qed.

Lemma adjustChannel_minus15 v : 0 <= v <= 255 ->
  isByte (adjustChannel (Int (-15)) v) = true.
Proof. revert v. apply forallb_bytes. vm_compute. reflexivity. Qed.

Lemma adjustChannel_minus8 v : 0 <= v <= 255 ->
  isByte (adjustChannel (Int (-8)) v) = true.
Proof. revert v. apply forallb_bytes. vm_compute. reflexivity. Qed.

(** A property of all fourteen roles of a palette. *)
Lemma forall_roles (P : string -> Prop) (x : Palette.t) :
  Forall (fun role => P (role x)) Palette.roles <->
  P (Palette.primary x) /\ P (Palette.primaryDark x)
  /\ P (Palette.primaryLight x) /\ P (Palette.secondary x)
  /\ P (Palette.background x) /\ P (Palette.text x) /\ P (Palette.border x)
  /\ P (Palette.button x) /\ P (Palette.link x) /\ P (Palette.accent x)
  /\ P (Palette.userBg x) /\ P (Palette.botBg x) /\ P (Palette.headerBg x)
  /\ P (Palette.headerText x).
Proof.
  unfold Palette.roles. rewrite !Forall_cons_iff, Forall_nil_iff. tauto.
Qed.

Ltac gamut_constant :=
  apply channels_inGamut; vm_compute; discriminate.

Lemma setText_forall (P : string -> Prop) v x :
  P v -> Forall (fun role => P (role x)) Palette.roles ->
  Forall (fun role => P (role (Palette.setText v x))) Palette.roles.
Proof. rewrite !forall_roles. destruct x. palette_fields. tauto. Qed.

Lemma setBotBg_forall (P : string -> Prop) v x :
  P v -> Forall (fun role => P (role x)) Palette.roles ->
  Forall (fun role => P (role (Palette.setBotBg v x))) Palette.roles.
Proof. rewrite !forall_roles. destruct x. palette_fields. tauto. Qed.

Lemma setPrimary_forall (P : string -> Prop) v x :
  P v -> Forall (fun role => P (role x)) Palette.roles ->
  Forall (fun role => P (role (Palette.setPrimary v x))) Palette.roles.
Proof. rewrite !forall_roles. destruct x. palette_fields. tauto. Qed.

(** The pass only writes colours, so it keeps a palette in gamut. *)
Lemma ensureAccessibleColors_inGamut x :
  Forall (fun role => inGamut (role x)) Palette.roles ->
  Forall (fun role => inGamut (role (ensureAccessibleColors x))) Palette.roles.
Proof.
  intro H. unfold ensureAccessibleColors.
  assert (H1 : Forall (fun role => inGamut (role (contrastText x))) Palette.roles).
  { unfold contrastText.
    repeat match goal with
           | |- context [if ?c then _ else _] => destruct c
           end; try assumption; apply setText_forall; try assumption;
      gamut_constant. }
  assert (H2 : Forall (fun role => inGamut (role (contrastBotBg (contrastText x))))
                 Palette.roles).
  { revert H1. generalize (contrastText x). intros y H1. unfold contrastBotBg.
    repeat match goal with
           | |- context [if ?c then _ else _] => destruct c
           end; try assumption; apply setBotBg_forall; try assumption;
      gamut_constant. }
  revert H2. generalize (contrastBotBg (contrastText x)). intros y H2.
  unfold distinctPrimary.
  repeat match goal with
         | |- context [if ?c then _ else _] => destruct c
         end; try assumption; apply setPrimary_forall; try assumption;
    gamut_constant.
Qed.

Lemma orElse_channels o d :
  wellFormed o -> channels d <> None -> channels (orElse o d) <> None.
Proof.
  destruct o as [s|]; cbn [wellFormed orElse]; [|auto].
  intros H _. destruct s; [|exact H]. exfalso. apply H. reflexivity.
Qed.

Lemma orElse_inGamut o d :
  wellFormed o -> inGamut d -> inGamut (orElse o d).
Proof.
  destruct o as [s|]; cbn [wellFormed orElse]; [|auto].
  intros H _. destruct s.
  - exfalso. apply H. reflexivity.
  - apply channels_inGamut, H.
Qed.

Lemma getContrastingTextColor_inGamut s : inGamut (getContrastingTextColor s).
Proof.
  unfold getContrastingTextColor. destruct (isLightColor s); gamut_constant.
Qed.

Lemma generateBotBackgroundColor_inGamut cs p :
  Extracted.primary cs = Some p -> channels p <> None ->
  wellFormed (Extracted.secondary cs) ->
  inGamut (generateBotBackgroundColor cs).
Proof.
  intros Hp Wp Ws. unfold generateBotBackgroundColor. rewrite Hp.
  assert (Np : String.eqb p EmptyString = false)
    by (destruct p; [exfalso; apply Wp|]; reflexivity).
  assert (L75 : inGamut (lightenColor p (Int 75)))
    by (apply lightenColor_inGamut; [apply lightenChannel_75 | exact Wp]).
  destruct (Extracted.secondary cs) as [s|]; cbn [falsy orElse sameOpt negb andb].
  - cbn [wellFormed] in Ws.
    assert (Ns : String.eqb s EmptyString = false)
      by (destruct s; [exfalso; apply Ws|]; reflexivity).
    rewrite Ns, Np. cbn [negb andb].
    destruct (String.eqb s p); cbn [negb].
    + exact L75.
    + apply lightenColor_inGamut; [apply lightenChannel_60 | exact Ws].
  - rewrite Np. exact L75.
Qed.


(** *** Further properties of the colour transforms *)

Lemma channelIs_inv x z : channelIs x z = true -> x = Int z.
Proof.
  destruct x as [w|f]; [|discriminate]. cbn [channelIs]. intro H.
  apply Z.eqb_eq in H. congruence.
Qed.

Lemma padStart_byte z :
  0 <= z <= 255 -> padStart (toString16 (Int z)) 2 "0" = byteHex z.
Proof.
  intro H.
  assert (E : String.eqb (padStart (toString16 (Int z)) 2 "0") (byteHex z) = true).
  { revert z H. apply forallb_bytes. vm_compute. reflexivity. }
  apply String.eqb_eq, E.
Qed.

(** The string a transform prints, given the integer each channel
    expression yields. *)
Lemma hexString_exact x y z r g b :
  channelIs x r = true -> channelIs y g = true -> channelIs z b = true ->
  0 <= r <= 255 -> 0 <= g <= 255 -> 0 <= b <= 255 ->
  hexString x y z = "#" ++ byteHex r ++ byteHex g ++ byteHex b.
Proof.
  intros Hx Hy Hz Hr Hg Hb.
  rewrite (channelIs_inv _ _ Hx), (channelIs_inv _ _ Hy), (channelIs_inv _ _ Hz).
  unfold hexString. rewrite !padStart_byte by assumption. reflexivity.
Qed.

(** The digits of a byte are the lower-cased digits it was read from. *)
Lemma byteHex_lower c1 c2 r :
  byteOf c1 c2 = Some r ->
  byteHex r = String (lowerChar c1) (String (lowerChar c2) EmptyString).
Proof.
  intro H.
  assert (I1 : isHexDigit c1 = true)
    by (destruct (byteOf_inv _ _ _ H) as (a & b & E & _);
        apply (hexVal_isHexDigit _ _ E)).
  assert (I2 : isHexDigit c2 = true)
    by (destruct (byteOf_inv _ _ _ H) as (a & b & _ & E & _);
        apply (hexVal_isHexDigit _ _ E)).
  assert (E : forall a b, isHexDigit a = true -> isHexDigit b = true ->
            match byteOf a b with
            | Some v => String.eqb (byteHex v)
                          (String (lowerChar a) (String (lowerChar b) EmptyString))
            | None => false
            end = true).
  { intros a b Ha. revert b. apply forallb_hexChars. revert a Ha.
    apply (forallb_hexChars
             (fun a => forallb (fun b =>
                match byteOf a b with
                | Some v => String.eqb (byteHex v)
                              (String (lowerChar a)
                                 (String (lowerChar b) EmptyString))
                | None => false
                end) hexChars)).
    vm_compute. reflexivity. }
  specialize (E c1 c2 I1 I2).
  rewrite H in E. apply String.eqb_eq, E.
Qed.

Lemma lowercase_of_channels s r g b :
  channels s = Some (r, g, b) ->
  toLowerCase s = "#" ++ byteHex r ++ byteHex g ++ byteHex b.
Proof.
  intro H. destruct (channels_inv _ _ _ _ H)
    as (c1 & c2 & c3 & c4 & c5 & c6 & -> & H1 & H2 & H3).
  rewrite (byteHex_lower _ _ _ H1), (byteHex_lower _ _ _ H2),
    (byteHex_lower _ _ _ H3).
  reflexivity.
Qed.

Lemma darkenChannel_0 v : 0 <= v <= 255 ->
  channelIs (darkenChannel (Int 0) v) v = true.
Proof. revert v. apply forallb_bytes. vm_compute. reflexivity. Qed.

Lemma lightenChannel_0 v : 0 <= v <= 255 ->
  channelIs (lightenChannel (Int 0) v) v = true.
Proof. revert v. apply forallb_bytes. vm_compute. reflexivity. Qed.

Lemma darkenChannel_100 v : 0 <= v <= 255 ->
  channelIs (darkenChannel (Int 100) v) 0 = true.
Proof. revert v. apply forallb_bytes. vm_compute. reflexivity. Qed.

Lemma lightenChannel_100 v : 0 <= v <= 255 ->
  channelIs (lightenChannel (Int 100) v) 255 = true.
Proof. revert v. apply forallb_bytes. vm_compute. reflexivity. Qed.

(** Darkening or lightening a colour by 0 percent gives the colour
    back, written in lower case. *)
Theorem transforms_by_0_lowercase s :
  channels s <> None ->
  darkenColor s (Int 0) = toLowerCase s
  /\ lightenColor s (Int 0) = toLowerCase s.
Proof.
  destruct (channels s) as [[[r g] b]|] eqn:E; [|congruence]. intros _.
  destruct (channels_range _ _ _ _ E) as (Hr & Hg & Hb).
  rewrite (darkenColor_channels _ _ _ _ _ E), (lightenColor_channels _ _ _ _ _ E),
    (lowercase_of_channels _ _ _ _ E).
  split; apply hexString_exact;
    try apply darkenChannel_0; try apply lightenChannel_0; assumption.
Qed.

Lemma transforms_by_0_lowercase_witness :
  darkenColor "#FF6600" (Int 0) = "#ff6600"
  /\ lightenColor "#FF6600" (Int 0) = "#ff6600".
Proof. apply (transforms_by_0_lowercase "#FF6600"). discriminate. Defined.

(** Darkening any colour by 100 percent gives black, lightening it by
    100 percent gives white. *)
Theorem transforms_by_100 s :
  channels s <> None ->
  darkenColor s (Int 100) = "#000000"
  /\ lightenColor s (Int 100) = "#ffffff".
Proof.
  destruct (channels s) as [[[r g] b]|] eqn:E; [|congruence]. intros _.
  destruct (channels_range _ _ _ _ E) as (Hr & Hg & Hb).
  rewrite (darkenColor_channels _ _ _ _ _ E), (lightenColor_channels _ _ _ _ _ E).
  split.
  - rewrite (hexString_exact _ _ _ 0 0 0);
      try apply darkenChannel_100; try assumption; try lia. reflexivity.
  - rewrite (hexString_exact _ _ _ 255 255 255);
      try apply lightenChannel_100; try assumption; try lia. reflexivity.
Qed.

Lemma transforms_by_100_witness :
  darkenColor "#ff6600" (Int 100) = "#000000"
  /\ lightenColor "#ff6600" (Int 100) = "#ffffff".
Proof. apply (transforms_by_100 "#ff6600"). discriminate. Defined.

Lemma darkenChannel_20_exact v : 0 <= v <= 255 ->
  channelIs (darkenChannel (Int 20) v) ((8 * v + 5) / 10) = true.
Proof. revert v. apply forallb_bytes. vm_compute. reflexivity. Qed.

Lemma lightenChannel_20_exact v : 0 <= v <= 255 ->
  channelIs (lightenChannel (Int 20) v) ((8 * v + 515) / 10) = true.
Proof. revert v. apply forallb_bytes. vm_compute. reflexivity. Qed.

Lemma tenth_bounds v : 0 <= v <= 255 ->
  (8 * v + 5) / 10 <= v /\ v <= (8 * v + 515) / 10
  /\ 0 <= (8 * v + 5) / 10 <= 255 /\ 0 <= (8 * v + 515) / 10 <= 255.
Proof.
  intro H.
  pose proof (Z.div_mod (8 * v + 5) 10). pose proof (Z.mod_pos_bound (8 * v + 5) 10).
  pose proof (Z.div_mod (8 * v + 515) 10).
  pose proof (Z.mod_pos_bound (8 * v + 515) 10).
  revert H0 H1 H2 H3.
  generalize ((8 * v + 5) / 10) ((8 * v + 5) mod 10)
             ((8 * v + 515) / 10) ((8 * v + 515) mod 10).
  intros. lia.
Qed.

(** The two variants of the primary colour: each channel [v] becomes
    the integer nearest to [0.8 v] when darkened by 20 percent, and
    the integer nearest to [v + 0.2 (255 - v)] when lightened by 20
    percent; darkening never raises a channel and lightening never
    lowers one. *)
Theorem primary_variants_exact s r g b :
  channels s = Some (r, g, b) ->
  let dark v := (8 * v + 5) / 10 in
  let light v := (8 * v + 515) / 10 in
  channels (darkenColor s (Int 20)) = Some (dark r, dark g, dark b)
  /\ channels (lightenColor s (Int 20)) = Some (light r, light g, light b)
  /\ dark r <= r /\ dark g <= g /\ dark b <= b
  /\ r <= light r /\ g <= light g /\ b <= light b.
Proof.
  intros E dark light. subst dark light. cbv beta.
  destruct (channels_range _ _ _ _ E) as (Hr & Hg & Hb).
  pose proof (tenth_bounds r Hr). pose proof (tenth_bounds g Hg).
  pose proof (tenth_bounds b Hb).
  rewrite (darkenColor_channels _ _ _ _ _ E), (lightenColor_channels _ _ _ _ _ E).
  rewrite (hexString_exact _ _ _ ((8 * r + 5) / 10) ((8 * g + 5) / 10)
             ((8 * b + 5) / 10));
    try apply darkenChannel_20_exact; try assumption; try tauto.
  rewrite (hexString_exact _ _ _ ((8 * r + 515) / 10) ((8 * g + 515) / 10)
             ((8 * b + 515) / 10));
    try apply lightenChannel_20_exact; try assumption; try tauto.
  rewrite !channels_byteHex by tauto. tauto.
Qed.

Lemma primary_variants_exact_witness :
  channels (darkenColor "#ff6600" (Int 20)) = Some (204, 82, 0)
  /\ channels (lightenColor "#ff6600" (Int 20)) = Some (255, 133, 51).
Proof.
  destruct (primary_variants_exact "#ff6600" 255 102 0 eq_refl) as (D & L & _).
  split; [exact D | exact L].
Defined.

(** [adjustColorBrightness], given the integer each channel yields. *)
Lemma adjustColorBrightness_exact s r g b percent (k : Z -> Z) :
  channels s = Some (r, g, b) ->
  (forall v, 0 <= v <= 255 -> channelIs (adjustChannel percent v) (k v) = true) ->
  (forall v, 0 <= v <= 255 -> 0 <= k v <= 255) ->
  adjustColorBrightness s percent
  = "#" ++ byteHex (k r) ++ byteHex (k g) ++ byteHex (k b).
Proof.
  intros E P K.
  destruct (channels_range _ _ _ _ E) as (Hr & Hg & Hb).
  rewrite (adjustColorBrightness_channels _ _ _ _ _ E).
  rewrite (channelIs_inv _ _ (P r Hr)), (channelIs_inv _ _ (P g Hg)),
    (channelIs_inv _ _ (P b Hb)).
  pose proof (K r Hr). pose proof (K g Hg). pose proof (K b Hb).
  rewrite !mul_Int by lia. rewrite !add_Int by lia.
  rewrite toString16_packed by assumption. reflexivity.
Qed.

Lemma adjustChannel_minus15_exact v : 0 <= v <= 255 ->
  channelIs (adjustChannel (Int (-15)) v) (Z.max 0 (v - 38)) = true.
Proof. revert v. apply forallb_bytes. vm_compute. reflexivity. Qed.

Lemma adjustChannel_minus8_exact v : 0 <= v <= 255 ->
  channelIs (adjustChannel (Int (-8)) v) (Z.max 0 (v - 20)) = true.
Proof. revert v. apply forallb_bytes. vm_compute. reflexivity. Qed.

Lemma adjustChannel_plus100 v : 0 <= v <= 255 ->
  channelIs (adjustChannel (Int 100) v) 255 = true.
Proof. revert v. apply forallb_bytes. vm_compute. reflexivity. Qed.

Lemma adjustChannel_minus100 v : 0 <= v <= 255 ->
  channelIs (adjustChannel (Int (-100)) v) 0 = true.
Proof. revert v. apply forallb_bytes. vm_compute. reflexivity. Qed.

(** The derived secondary and border colours: [adjustColorBrightness]
    by -15 subtracts 38 from each channel and by -8 subtracts 20, and a
    channel that would go below 0 stops at 0. *)
Theorem adjustColorBrightness_subtracts s r g b :
  channels s = Some (r, g, b) ->
  channels (adjustColorBrightness s (Int (-15)))
  = Some (Z.max 0 (r - 38), Z.max 0 (g - 38), Z.max 0 (b - 38))
  /\ channels (adjustColorBrightness s (Int (-8)))
     = Some (Z.max 0 (r - 20), Z.max 0 (g - 20), Z.max 0 (b - 20)).
Proof.
  intro E. destruct (channels_range _ _ _ _ E) as (Hr & Hg & Hb).
  rewrite (adjustColorBrightness_exact _ _ _ _ _ (fun v => Z.max 0 (v - 38)) E)
    by (try apply adjustChannel_minus15_exact; intros; lia).
  rewrite (adjustColorBrightness_exact _ _ _ _ _ (fun v => Z.max 0 (v - 20)) E)
    by (try apply adjustChannel_minus8_exact; intros; lia).
  rewrite !channels_byteHex by lia. auto.
Qed.

Lemma adjustColorBrightness_subtracts_witness :
  channels (adjustColorBrightness "#ff6600" (Int (-15))) = Some (217, 64, 0)
  /\ channels (adjustColorBrightness "#ff6600" (Int (-8))) = Some (235, 82, 0).
Proof. apply (adjustColorBrightness_subtracts "#ff6600" 255 102 0 eq_refl). Defined.

(** At the ends of the scale [adjustColorBrightness] saturates: by 100
    percent every colour becomes white, by -100 percent black. *)
Theorem adjustColorBrightness_saturates s :
  channels s <> None ->
  adjustColorBrightness s (Int 100) = "#ffffff"
  /\ adjustColorBrightness s (Int (-100)) = "#000000".
Proof.
  destruct (channels s) as [[[r g] b]|] eqn:E; [|congruence]. intros _.
  rewrite (adjustColorBrightness_exact _ _ _ _ _ (fun _ => 255) E)
    by (try apply adjustChannel_plus100; intros; lia).
  rewrite (adjustColorBrightness_exact _ _ _ _ _ (fun _ => 0) E)
    by (try apply adjustChannel_minus100; intros; lia).
  split; reflexivity.
Qed.

Lemma adjustColorBrightness_saturates_witness :
  adjustColorBrightness "#ff6600" (Int 100) = "#ffffff"
  /\ adjustColorBrightness "#ff6600" (Int (-100)) = "#000000".
Proof. apply (adjustColorBrightness_saturates "#ff6600"). discriminate. Defined.

(** *** Further properties of the validation *)

(** A primary colour that is not six characters long once lower-cased,
    trimmed and stripped of its first [#] is rejected: three-digit
    colours, colour names and functional notations never validate. *)
Theorem isWebsiteSpecificColor_needs_six s :
  String.length (removeFirst "#" (trim (toLowerCase s))) <> 6%nat ->
  isWebsiteSpecificColor s = false.
Proof.
  intro H. apply Nat.eqb_neq in H. unfold isWebsiteSpecificColor.
  destruct (String.eqb s EmptyString); [reflexivity|].
  destruct (includes genericColors (trim (toLowerCase s))); [reflexivity|].
  unfold isColorTooLight, isColorTooDark, hasGoodSaturation.
  rewrite H. reflexivity.
Qed.

Lemma isWebsiteSpecificColor_needs_six_witness :
  isWebsiteSpecificColor "#f60" = false
  /\ isWebsiteSpecificColor "rgb(255, 102, 0)" = false.
Proof.
  split; apply isWebsiteSpecificColor_needs_six; vm_compute; discriminate.
Defined.

Lemma lowerChar_idempotent c : lowerChar (lowerChar c) = lowerChar c.
Proof. destruct c as [[] [] [] [] [] [] [] []]; vm_compute; reflexivity. Qed.

Lemma toLowerCase_idempotent s : toLowerCase (toLowerCase s) = toLowerCase s.
Proof.
  induction s as [|c r IH]; [reflexivity|].
  cbn [toLowerCase]. rewrite lowerChar_idempotent, IH. reflexivity.
Qed.

(** The validation does not depend on the case of the colour. *)
Theorem isWebsiteSpecificColor_ignores_case s :
  isWebsiteSpecificColor (toLowerCase s) = isWebsiteSpecificColor s.
Proof.
  unfold isWebsiteSpecificColor. rewrite toLowerCase_idempotent.
  destruct s; reflexivity.
Qed.

(** *** Further properties of the accessibility pass *)

(** After the pass the text and the background are never in the same
    lightness class. *)
Theorem ensureAccessibleColors_text_contrast (p : Palette.t) :
  isLightColor (Palette.text (ensureAccessibleColors p))
  = negb (isLightColor (Palette.background (ensureAccessibleColors p))).
Proof.
  destruct (ensureAccessibleColors_shape p) as (t & c & q & -> & Ht & _).
  destruct p. palette_fields. exact Ht.
Qed.

Lemma contrastText_cases p :
  contrastText p = p \/ contrastText p = Palette.setText "#2d3748" p
  \/ contrastText p = Palette.setText "#f7fafc" p.
Proof. unfold contrastText. split_ifs; auto. Qed.

Lemma contrastBotBg_cases p :
  contrastBotBg p = p \/ contrastBotBg p = Palette.setBotBg "#f8f9fa" p
  \/ contrastBotBg p = Palette.setBotBg "#e2e8f0" p.
Proof. unfold contrastBotBg. split_ifs; auto. Qed.

Lemma distinctPrimary_cases p :
  distinctPrimary p = p \/ distinctPrimary p = Palette.setPrimary "#4299e1" p
  \/ distinctPrimary p = Palette.setPrimary "#63b3ed" p.
Proof. unfold distinctPrimary. split_ifs; auto. Qed.

(** The pass writes at most three roles, each with one of two fixed
    colours; the other eleven roles are left as they were. *)
Theorem ensureAccessibleColors_frame (p : Palette.t) :
  let q := ensureAccessibleColors p in
  Palette.primaryDark q = Palette.primaryDark p
  /\ Palette.primaryLight q = Palette.primaryLight p
  /\ Palette.secondary q = Palette.secondary p
  /\ Palette.background q = Palette.background p
  /\ Palette.border q = Palette.border p
  /\ Palette.button q = Palette.button p
  /\ Palette.link q = Palette.link p
  /\ Palette.accent q = Palette.accent p
  /\ Palette.userBg q = Palette.userBg p
  /\ Palette.headerBg q = Palette.headerBg p
  /\ Palette.headerText q = Palette.headerText p
  /\ In (Palette.text q) [Palette.text p; "#2d3748"; "#f7fafc"]
  /\ In (Palette.botBg q) [Palette.botBg p; "#f8f9fa"; "#e2e8f0"]
  /\ In (Palette.primary q) [Palette.primary p; "#4299e1"; "#63b3ed"].
Proof.
  cbv zeta. unfold ensureAccessibleColors.
  destruct (contrastText_cases p) as [-> | [-> | ->]];
    match goal with
    | |- context [contrastBotBg ?x] =>
        destruct (contrastBotBg_cases x) as [-> | [-> | ->]]
    end;
    match goal with
    | |- context [distinctPrimary ?x] =>
        destruct (distinctPrimary_cases x) as [-> | [-> | ->]]
    end;
    destruct p; palette_fields; cbn [In]; auto 20.
Qed.

(** *** The similarity test *)

Lemma sub_Int x y :
  Z.abs (x - y) <= 9007199254740992 -> sub (Int x) (Int y) = Int (x - y).
Proof. intro H. unfold sub. rewrite safe_small by exact H. reflexivity. Qed.

Lemma pow2_Int d : Z.abs d <= 255 -> Math_pow2 (Int d) = Int (d * d).
Proof.
  intro H. unfold Math_pow2, mul. rewrite safe_small by nia.
  destruct (d * d =? 0) eqn:E; cbn [negb orb andb]; [|reflexivity].
  apply Z.eqb_eq in E. assert (d = 0) by nia. subst d. reflexivity.
Qed.

(** The squared distance the code takes the root of. *)
Lemma isColorTooSimilar_channels s1 s2 r1 g1 b1 r2 g2 b2 :
  channels s1 = Some (r1, g1, b1) -> channels s2 = Some (r2, g2, b2) ->
  isColorTooSimilar s1 s2
  = lt (Math_sqrt (Int ((r2 - r1) * (r2 - r1) + (g2 - g1) * (g2 - g1)
                        + (b2 - b1) * (b2 - b1))))
       (Int 100).
Proof.
  intros E1 E2.
  destruct (channels_range _ _ _ _ E1) as (Hr1 & Hg1 & Hb1).
  destruct (channels_range _ _ _ _ E2) as (Hr2 & Hg2 & Hb2).
  destruct (channels_inv _ _ _ _ E1)
    as (c1 & c2 & c3 & c4 & c5 & c6 & -> & A1 & A2 & A3).
  destruct (channels_inv _ _ _ _ E2)
    as (d1 & d2 & d3 & d4 & d5 & d6 & -> & B1 & B2 & B3).
  destruct (parse_channels _ _ _ _ _ _ _ _ _ A1 A2 A3) as (P1 & P2 & P3).
  destruct (parse_channels _ _ _ _ _ _ _ _ _ B1 B2 B3) as (Q1 & Q2 & Q3).
  unfold isColorTooSimilar.
  rewrite !hashed_not_empty, !hashed_startsWith. cbn [orb negb slice1].
  rewrite P1, P2, P3, Q1, Q2, Q3.
  rewrite !sub_Int by lia. rewrite !pow2_Int by lia.
  rewrite !add_Int by nia. reflexivity.
Qed.

(** On colours the similarity test is symmetric, and every colour is
    too similar to itself. *)
Theorem isColorTooSimilar_symmetric s1 s2 :
  channels s1 <> None -> channels s2 <> None ->
  isColorTooSimilar s1 s2 = isColorTooSimilar s2 s1
  /\ isColorTooSimilar s1 s1 = true.
Proof.
  destruct (channels s1) as [[[r1 g1] b1]|] eqn:E1; [|congruence].
  destruct (channels s2) as [[[r2 g2] b2]|] eqn:E2; [|congruence].
  intros _ _.
  rewrite (isColorTooSimilar_channels _ _ _ _ _ _ _ _ E1 E2),
    (isColorTooSimilar_channels _ _ _ _ _ _ _ _ E2 E1),
    (isColorTooSimilar_channels _ _ _ _ _ _ _ _ E1 E1).
  split.
  - do 3 f_equal. ring.
  - replace ((r1 - r1) * (r1 - r1) + (g1 - g1) * (g1 - g1)
             + (b1 - b1) * (b1 - b1)) with 0 by ring.
    vm_compute. reflexivity.
Qed.

Lemma isColorTooSimilar_symmetric_witness :
  isColorTooSimilar "#63b3ed" "#4299e1" = isColorTooSimilar "#4299e1" "#63b3ed"
  /\ isColorTooSimilar "#63b3ed" "#63b3ed" = true.
Proof. apply isColorTooSimilar_symmetric; discriminate. Defined.

(** *** A primary written without [#] *)

(** Six hexadecimal digits without the leading [#] can pass the
    validation, which strips a [#] before it measures; the transforms
    require the [#], so with such a primary and no other reported role
    the derived primaryDark, primaryLight, secondary and botBg are all
    that same string, which is not a colour. *)
Theorem hashless_primary_is_copied h r g b :
  channels (String "#" h) = Some (r, g, b) ->
  isWebsiteSpecificColor h = true ->
  let q := getThemeColors "website"
             (Some {| colors := Some (PlainTheme.onlyPrimary h) |}) in
  Palette.primary q = h /\ Palette.primaryDark q = h
  /\ Palette.primaryLight q = h /\ Palette.secondary q = h
  /\ Palette.botBg q = h /\ channels h = None.
Proof.
  intros E V. cbv zeta.
  destruct (channels_inv _ _ _ _ E)
    as (c1 & c2 & c3 & c4 & c5 & c6 & Eh & H1 & _).
  injection Eh as ->.
  destruct (byteOf_tests _ _ _ H1) as (_ & _ & N1 & _).
  set (h := String c1 (String c2 (String c3 (String c4 (String c5
                (String c6 EmptyString)))))) in *.
  assert (S : startsWith h "#" = false).
  { unfold startsWith, h. cbn [String.prefix].
    destruct (ascii_dec "#" c1) as [<- | _]; [discriminate N1 | reflexivity]. }
  assert (T : forall percent,
            darkenColor h percent = h /\ lightenColor h percent = h
            /\ adjustColorBrightness h percent = h).
  { intro percent. unfold darkenColor, lightenColor, adjustColorBrightness.
    rewrite S. cbn [negb]. rewrite orb_true_r. auto. }
  assert (L : isLightColor h = true).
  { unfold isLightColor. rewrite S.
    destruct (String.eqb h EmptyString || String.eqb h "transparent");
      reflexivity. }
  assert (Sim : forall x, isColorTooSimilar h x = false).
  { intro x. unfold isColorTooSimilar. rewrite S. cbn [negb].
    rewrite orb_true_r. reflexivity. }
  unfold getThemeColors. cbn [colors PlainTheme.onlyPrimary Extracted.primary].
  change (String.eqb "website" "website") with true.
  change (String.eqb h EmptyString) with false. rewrite V. cbn [negb andb].
  unfold buildThemeColors, generateBotBackgroundColor.
  cbn [PlainTheme.onlyPrimary Extracted.primary Extracted.secondary
       Extracted.background Extracted.text Extracted.border Extracted.button
       Extracted.link Extracted.accent orElse falsy sameOpt negb andb].
  change (String.eqb h EmptyString) with false. cbn [negb].
  destruct (T (Int 20)) as (-> & -> & _). destruct (T (Int (-15))) as (_ & _ & ->).
  destruct (T (Int 75)) as (_ & -> & _).
  unfold ensureAccessibleColors.
  assert (C : getContrastingTextColor "#ffffff" = "#ffffff")
    by (vm_compute; reflexivity).
  rewrite C.
  assert (W : isLightColor "#ffffff" = true) by (vm_compute; reflexivity).
  assert (D : isLightColor "#2d3748" = false) by (vm_compute; reflexivity).
  unfold contrastText; palette_fields. rewrite W. cbn [andb].
  unfold contrastBotBg, isDarkColor; palette_fields. rewrite L, D. cbn [andb negb].
  unfold distinctPrimary; palette_fields. rewrite Sim.
  palette_fields. repeat split.
Qed.

Lemma hashless_primary_is_copied_witness :
  let q := getThemeColors "website"
             (Some {| colors := Some (PlainTheme.onlyPrimary "ff6600") |}) in
  Palette.primary q = "ff6600" /\ Palette.primaryDark q = "ff6600"
  /\ Palette.primaryLight q = "ff6600" /\ Palette.secondary q = "ff6600"
  /\ Palette.botBg q = "ff6600" /\ channels "ff6600" = None.
Proof.
  apply (hashless_primary_is_copied "ff6600" 255 102 0).
  - reflexivity.
  - vm_compute. reflexivity.
Defined.

(** *** The gamut of the derived palette, assembled *)

(** The pass leaves the secondary and the border as they are. *)
Lemma ensureAccessibleColors_keeps_derived x :
  Palette.secondary (ensureAccessibleColors x) = Palette.secondary x
  /\ Palette.border (ensureAccessibleColors x) = Palette.border x.
Proof.
  destruct (ensureAccessibleColors_shape x) as (t & c & q & -> & _).
  destruct x. palette_fields. auto.
Qed.

Lemma orElse_falsy o d : falsy o = true -> orElse o d = d.
Proof.
  destruct o as [s|]; cbn [falsy orElse]; [|reflexivity]. intros ->. reflexivity.
Qed.

(** C9 (as the code behaves): when every colour the theme reports is a
    [#rrggbb] colour and its primary passes validation, each of the
    fourteen roles of the derived palette is a [#rrggbb] colour whose
    three channels lie in [0, 255]; a secondary or border that the
    theme does not report is the primary, or the background, with 38,
    or 20, subtracted from each channel and stopped at 0. *)
Theorem derived_palette_inGamut (cs : Extracted.Colors) (p : string) :
  Extracted.primary cs = Some p ->
  isWebsiteSpecificColor p = true ->
  allWellFormed cs ->
  let q := getThemeColors "website" (Some {| colors := Some cs |}) in
  Forall (fun role => inGamut (role q)) Palette.roles
  /\ (forall r g b,
        channels p = Some (r, g, b) ->
        falsy (Extracted.secondary cs) = true ->
        channels (Palette.secondary q)
        = Some (Z.max 0 (r - 38), Z.max 0 (g - 38), Z.max 0 (b - 38)))
  /\ (forall r g b,
        channels (orElse (Extracted.background cs) "#ffffff") = Some (r, g, b) ->
        falsy (Extracted.border cs) = true ->
        channels (Palette.border q)
        = Some (Z.max 0 (r - 20), Z.max 0 (g - 20), Z.max 0 (b - 20))).
Proof.
  intros Hp Hv (Wp & Wse & Wbg & Wtx & Wbo & Wbu & Wli & Wac). cbv zeta.
  rewrite Hp in Wp. cbn [wellFormed] in Wp.
  assert (Np : String.eqb p EmptyString = false)
    by (destruct p; [exfalso; apply Wp|]; reflexivity).
  unfold getThemeColors. cbn [colors]. rewrite Hp, Np, Hv.
  change (String.eqb "website" "website") with true. cbn [negb andb].
  destruct (ensureAccessibleColors_keeps_derived (buildThemeColors cs p))
    as (-> & ->).
  split; [|split].
  - apply ensureAccessibleColors_inGamut.
    pose proof (channels_inGamut p Wp) as Gp.
    assert (Wb : channels (orElse (Extracted.background cs) "#ffffff") <> None)
      by (apply orElse_channels; [exact Wbg | discriminate]).
    apply forall_roles. unfold buildThemeColors. palette_fields.
    repeat split; try exact Gp; try (apply orElse_inGamut; assumption).
    + apply darkenColor_inGamut, Wp.
    + apply lightenColor_inGamut; [apply lightenChannel_20 | exact Wp].
    + apply orElse_inGamut; [exact Wse|].
      apply adjustColorBrightness_inGamut; [apply adjustChannel_minus15 | exact Wp].
    + apply channels_inGamut, Wb.
    + apply orElse_inGamut; [exact Wtx | apply getContrastingTextColor_inGamut].
    + apply orElse_inGamut; [exact Wbo|].
      apply adjustColorBrightness_inGamut; [apply adjustChannel_minus8 | exact Wb].
    + apply (generateBotBackgroundColor_inGamut cs p); assumption.
    + apply getContrastingTextColor_inGamut.
  - intros r g b E F. unfold buildThemeColors. palette_fields.
    rewrite (orElse_falsy _ _ F).
    destruct (channels_range _ _ _ _ E) as (Hr & Hg & Hb).
    rewrite (adjustColorBrightness_exact _ _ _ _ _ (fun v => Z.max 0 (v - 38)) E)
      by (try apply adjustChannel_minus15_exact; intros; lia).
    apply channels_byteHex; lia.
  - intros r g b E F. unfold buildThemeColors. palette_fields.
    rewrite (orElse_falsy _ _ F).
    destruct (channels_range _ _ _ _ E) as (Hr & Hg & Hb).
    rewrite (adjustColorBrightness_exact _ _ _ _ _ (fun v => Z.max 0 (v - 20)) E)
      by (try apply adjustChannel_minus8_exact; intros; lia).
    apply channels_byteHex; lia.
Qed.

Lemma derived_palette_inGamut_witness :
  let q := getThemeColors "website"
             (Some {| colors := Some (PlainTheme.onlyPrimary "#ff6600") |}) in
  Forall (fun role => inGamut (role q)) Palette.roles
  /\ channels (Palette.secondary q) = Some (217, 64, 0)
  /\ channels (Palette.border q) = Some (235, 235, 235).
Proof.
  destruct (derived_palette_inGamut (PlainTheme.onlyPrimary "#ff6600") "#ff6600")
    as (G & S & B).
  - reflexivity.
  - vm_compute. reflexivity.
  - unfold allWellFormed, PlainTheme.onlyPrimary, wellFormed.
    cbn [Extracted.primary Extracted.secondary Extracted.background
         Extracted.text Extracted.border Extracted.button Extracted.link
         Extracted.accent].
    repeat split; try exact I. discriminate.
  - split; [exact G|]. split.
    + apply (S 255 102 0); reflexivity.
    + apply (B 255 255 255); reflexivity.
Defined.

(** A primary that passes the validation need not be a colour: a sign
    in place of a digit is read as a negative channel, which the
    saturation and luminance tests accept, and [darkenColor] prints it
    back with its sign. *)
Lemma validated_primary_outside_gamut :
  let q := getThemeColors "website"
             (Some {| colors := Some (PlainTheme.onlyPrimary "#-f6600") |}) in
  isWebsiteSpecificColor "#-f6600" = true
  /\ Palette.primaryDark q = "#-c5200"
  /\ channels (Palette.primaryDark q) = None
  /\ ~ Forall (fun role => inGamut (role q)) Palette.roles.
Proof.
  cbv zeta.
  assert (D : Palette.primaryDark
                (getThemeColors "website"
                   (Some {| colors := Some (PlainTheme.onlyPrimary "#-f6600") |}))
              = "#-c5200") by (vm_compute; reflexivity).
  split; [vm_compute; reflexivity|]. split; [exact D|].
  split; [rewrite D; reflexivity|].
  intro F. apply forall_roles in F. destruct F as (_ & (r & g & b & E & _) & _).
  rewrite D in E. discriminate E.
Qed.

End ThemeEngineFacts.

(** ** ConfigSync *)

Module ConfigSyncFacts.
Import JS ThemeEngine ConfigSync.

Lemma sameOpt_true a b : sameOpt a b = true <-> a = b.
Proof.
  destruct a as [x|], b as [y|]; cbn [sameOpt]; split; intro H;
    try discriminate; try reflexivity.
  - apply String.eqb_eq in H. congruence.
  - injection H as ->. apply String.eqb_refl.
Qed.

Lemma sameOpt_false a b : sameOpt a b = false <-> a <> b.
Proof.
  rewrite <- sameOpt_true. destruct (sameOpt a b); split; congruence.
Qed.

Section Facts.

Context {ThemeData : Type} `{!ThemeObject ThemeData}.

(** C2: the change detection answers true exactly when there is no
    baseline, or the selected website ids differ, or the theme choices
    differ, or the new theme choice is [website] and the serialized
    theme data differ; a configuration compared with itself as the
    baseline is unchanged. *)
Theorem hasConfigurationChanged_iff (this : @ChatBot ThemeData) (newConfig : @RemoteConfig ThemeData) :
  (hasConfigurationChanged this newConfig = true <->
   sdkConfig this = None
   \/ exists old, sdkConfig this = Some old
        /\ (websiteId (selectedWebsite old)
              <> websiteId (selectedWebsite newConfig)
            \/ themeChoiceOf (integration old)
                 <> themeChoiceOf (integration newConfig)
            \/ (themeChoiceOf (integration newConfig) = Some "website"
                /\ serializeThemeData (themeData old)
                     <> serializeThemeData (themeData newConfig))))
  /\ hasConfigurationChanged (setSdkConfig (Some newConfig) this) newConfig
     = false.
Proof.
  split.
  - unfold hasConfigurationChanged.
    destruct (sdkConfig this) as [old|]; [|split; auto].
    destruct (sameOpt (websiteId (selectedWebsite old))
                      (websiteId (selectedWebsite newConfig))) eqn:E1;
      cbn [negb].
    2:{ apply sameOpt_false in E1. split; [|reflexivity].
        intros _. right. exists old. auto. }
    apply sameOpt_true in E1.
    destruct (sameOpt (themeChoiceOf (integration old))
                      (themeChoiceOf (integration newConfig))) eqn:E2;
      cbn [negb].
    2:{ apply sameOpt_false in E2. split; [|reflexivity].
        intros _. right. exists old. auto. }
    apply sameOpt_true in E2.
    destruct (sameOpt (themeChoiceOf (integration newConfig)) (Some "website"))
      eqn:E3.
    + apply sameOpt_true in E3.
      destruct (String.eqb (serializeThemeData (themeData old))
                           (serializeThemeData (themeData newConfig))) eqn:E4;
        cbn [negb].
      * apply String.eqb_eq in E4. split; [discriminate|].
        intros [H | (o & Ho & [H | [H | [_ H]]])]; try discriminate;
          injection Ho as <-; contradiction.
      * apply String.eqb_neq in E4. split; [|reflexivity].
        intros _. right. exists old. auto.
    + apply sameOpt_false in E3. split; [discriminate|].
      intros [H | (o & Ho & [H | [H | [H _]]])]; try discriminate;
        injection Ho as <-; contradiction.
  - unfold hasConfigurationChanged. cbn [sdkConfig setSdkConfig].
    assert (R : forall a, sameOpt a a = true) by (intro a; apply sameOpt_true; reflexivity).
    rewrite !R. cbn [negb]. rewrite String.eqb_refl.
    destruct (sameOpt _ _); reflexivity.
Qed.

(** C10: a configuration without [integration], or without both
    [selectedWebsite] and [availableWebsites], makes
    [applyNewConfiguration] throw a [TypeError], although the change
    detection accepts it. *)
Theorem applyNewConfiguration_throws (this : @ChatBot ThemeData) (newConfig : @RemoteConfig ThemeData) :
  integration newConfig = None
  \/ (selectedWebsite newConfig = None /\ availableWebsites newConfig = None) ->
  snd (applyNewConfiguration this newConfig) = Some TypeError
  /\ (sdkConfig this = None -> hasConfigurationChanged this newConfig = true).
Proof.
  intro H. split;
    [|intro N; unfold hasConfigurationChanged; rewrite N; reflexivity].
  unfold applyNewConfiguration.
  destruct (integration newConfig) as [integ|]; [|reflexivity].
  destruct H as [H | [H1 H2]]; [discriminate|].
  unfold updateSelectedWebsite. rewrite H1, H2. reflexivity.
Qed.

Ltac split_matches :=
  repeat match goal with
         | |- context [match ?x with _ => _ end] => destruct x
         end.

(** What each update of the customizations leaves alone. *)
Lemma updatePosition_frame (v : option string) (this : @ChatBot ThemeData) :
  let this' := updatePosition v this in
  sdkConfig this' = sdkConfig this /\ websiteTheme this' = websiteTheme this
  /\ currentFileId this' = currentFileId this
  /\ chatHistory this' = chatHistory this
  /\ Options.title (options this') = Options.title (options this)
  /\ Options.placeholder (options this') = Options.placeholder (options this)
  /\ Options.themeStyle (options this') = Options.themeStyle (options this)
  /\ Widget.inputDisabled (widget this') = Widget.inputDisabled (widget this)
  /\ Widget.inputPlaceholder (widget this')
     = Widget.inputPlaceholder (widget this)
  /\ Widget.titleText (widget this') = Widget.titleText (widget this).
Proof. cbv zeta. unfold updatePosition. split_matches; repeat split. Qed.

Lemma updateTitle_frame (v : option string) (this : @ChatBot ThemeData) :
  let this' := updateTitle v this in
  sdkConfig this' = sdkConfig this /\ websiteTheme this' = websiteTheme this
  /\ currentFileId this' = currentFileId this
  /\ chatHistory this' = chatHistory this
  /\ Options.position (options this') = Options.position (options this)
  /\ Options.placeholder (options this') = Options.placeholder (options this)
  /\ Options.themeStyle (options this') = Options.themeStyle (options this)
  /\ Widget.inputDisabled (widget this') = Widget.inputDisabled (widget this)
  /\ Widget.inputPlaceholder (widget this')
     = Widget.inputPlaceholder (widget this)
  /\ Widget.className (widget this') = Widget.className (widget this).
Proof. cbv zeta. unfold updateTitle. split_matches; repeat split. Qed.

Lemma updatePlaceholder_frame (v : option string) (this : @ChatBot ThemeData) :
  let this' := updatePlaceholder v this in
  sdkConfig this' = sdkConfig this /\ websiteTheme this' = websiteTheme this
  /\ currentFileId this' = currentFileId this
  /\ chatHistory this' = chatHistory this
  /\ Options.position (options this') = Options.position (options this)
  /\ Options.title (options this') = Options.title (options this)
  /\ Options.themeStyle (options this') = Options.themeStyle (options this)
  /\ Widget.inputDisabled (widget this') = Widget.inputDisabled (widget this)
  /\ Widget.className (widget this') = Widget.className (widget this)
  /\ Widget.titleText (widget this') = Widget.titleText (widget this)
  /\ (Widget.inputDisabled (widget this) = true ->
      Widget.inputPlaceholder (widget this')
      = Widget.inputPlaceholder (widget this)).
Proof.
  cbv zeta. unfold updatePlaceholder.
  destruct v as [p|]; [|repeat split].
  destruct (negb (String.eqb p EmptyString)
            && negb (String.eqb p (Options.placeholder (options this))));
    [|repeat split].
  cbv zeta. cbn [widget setOptions].
  destruct (Widget.inputDisabled (widget this)) eqn:D; cbn [negb];
    repeat split; try exact D; try discriminate.
Qed.

Lemma applyCustomizations_baseline (c : Customizations.t)
    (this : @ChatBot ThemeData) :
  sdkConfig (applyCustomizations c this) = sdkConfig this.
Proof.
  unfold applyCustomizations.
  destruct (updatePlaceholder_frame (Customizations.placeholder c)
              (updateTitle (Customizations.title c)
                 (updatePosition (Customizations.position c) this)))
    as (-> & _).
  destruct (updateTitle_frame (Customizations.title c)
              (updatePosition (Customizations.position c) this)) as (-> & _).
  apply updatePosition_frame.
Qed.

Lemma updateSettings_baseline (integ : Integration) (this : @ChatBot ThemeData) :
  sdkConfig (updateSettings integ this) = sdkConfig this.
Proof.
  unfold updateSettings. destruct (customizations integ); [|reflexivity].
  apply applyCustomizations_baseline.
Qed.

Lemma updateThemeSettings_baseline (integ : Integration)
    (newConfig : @RemoteConfig ThemeData) (this : @ChatBot ThemeData) :
  sdkConfig (updateThemeSettings integ newConfig this) = sdkConfig this.
Proof.
  unfold updateThemeSettings.
  destruct (themeData newConfig), (isWebsiteChoice integ); reflexivity.
Qed.

Lemma updateSelectedWebsite_baseline (newConfig : @RemoteConfig ThemeData) (this : @ChatBot ThemeData) :
  sdkConfig (fst (updateSelectedWebsite newConfig this)) = sdkConfig this.
Proof.
  unfold updateSelectedWebsite.
  destruct (selectedWebsite newConfig) as [site|]; [reflexivity|].
  destruct (availableWebsites newConfig) as [[|firstSite rest]|]; reflexivity.
Qed.

(** What a poll leaves as the baseline. *)
Lemma applyNewConfiguration_baseline (this : @ChatBot ThemeData) (newConfig : @RemoteConfig ThemeData) :
  sdkConfig (fst (applyNewConfiguration this newConfig)) = Some newConfig.
Proof.
  unfold applyNewConfiguration.
  destruct (integration newConfig) as [integ|]; [|reflexivity].
  rewrite updateSelectedWebsite_baseline, updateThemeSettings_baseline,
    updateSettings_baseline.
  reflexivity.
Qed.


(** C6 (as the code behaves): when the key validation fails, [init]
    shows the invalid-key message, disables the input and the send
    button and loads no configuration; the timer and the listeners that
    the constructor installed stay as they are. *)
Theorem failed_validation_disables_input (p : @Page ThemeData) :
  stage p = AwaitingValidation ->
  let q := step p (ValidationResult false) in
  Widget.messages (widget (bot q)) = Widget.InvalidApiKey
  /\ Widget.inputDisabled (widget (bot q)) = true
  /\ Widget.sendDisabled (widget (bot q)) = true
  /\ Widget.inputPlaceholder (widget (bot q))
     = "Invalid API key - chatbot disabled"
  /\ sdkConfig (bot q) = sdkConfig (bot p)
  /\ stage q = Settled
  /\ activeTimers q = activeTimers p
  /\ visibilityListener q = visibilityListener p
  /\ focusListener q = focusListener p.
Proof.
  intro H. cbv zeta. cbn [step]. rewrite H. cbn. repeat split.
Qed.


(** *** Further properties of the poll *)

Lemma hasConfigurationChanged_same (this : @ChatBot ThemeData) (c : @RemoteConfig ThemeData) :
  sdkConfig this = Some c -> hasConfigurationChanged this c = false.
Proof.
  intro H. unfold hasConfigurationChanged. rewrite H.
  assert (R : forall a, sameOpt a a = true)
    by (intro a; apply sameOpt_true; reflexivity).
  rewrite !R. cbn [negb]. rewrite String.eqb_refl.
  destruct (sameOpt _ _); reflexivity.
Qed.

(** Whatever [applyNewConfiguration] does, and also when it throws,
    the configuration it was given is the baseline afterwards, so the
    same configuration polled again is reported as unchanged and is not
    applied a second time. *)
Theorem applied_configuration_is_not_retried
    (this : @ChatBot ThemeData) (newConfig : @RemoteConfig ThemeData) :
  let this' := fst (applyNewConfiguration this newConfig) in
  sdkConfig this' = Some newConfig
  /\ hasConfigurationChanged this' newConfig = false
  /\ refreshConfigurationResume this' (Envelope true (Some newConfig)) = this'.
Proof.
  cbv zeta. pose proof (applyNewConfiguration_baseline this newConfig) as B.
  pose proof (hasConfigurationChanged_same _ _ B) as U.
  split; [exact B|]. split; [exact U|].
  cbn [refreshConfigurationResume]. rewrite U. reflexivity.
Qed.

(** A poll leaves the instance as it is unless its response is a
    success envelope that carries a configuration reported as changed:
    a failed request, [success: false], missing data and an unchanged
    configuration all change nothing. *)
Theorem poll_without_change_is_silent (this : @ChatBot ThemeData) (r : @Response ThemeData) :
  (forall newConfig, r = Envelope true (Some newConfig) ->
                     hasConfigurationChanged this newConfig = false) ->
  refreshConfigurationResume this r = this.
Proof.
  intro H. destruct r as [|[] [newConfig|]]; try reflexivity.
  cbn [refreshConfigurationResume]. rewrite (H newConfig eq_refl). reflexivity.
Qed.

Lemma useWebsite_options (site : Website.t) (this : @ChatBot ThemeData) :
  options (useWebsite site this) = options this
  /\ websiteTheme (useWebsite site this) = websiteTheme this.
Proof. split; reflexivity. Qed.

Lemma applyCustomizations_theme (c : Customizations.t) (this : @ChatBot ThemeData) :
  websiteTheme (applyCustomizations c this) = websiteTheme this
  /\ currentFileId (applyCustomizations c this) = currentFileId this
  /\ chatHistory (applyCustomizations c this) = chatHistory this.
Proof.
  unfold applyCustomizations.
  destruct (updatePlaceholder_frame (Customizations.placeholder c)
              (updateTitle (Customizations.title c)
                 (updatePosition (Customizations.position c) this)))
    as (_ & -> & -> & -> & _).
  destruct (updateTitle_frame (Customizations.title c)
              (updatePosition (Customizations.position c) this))
    as (_ & -> & -> & -> & _).
  destruct (updatePosition_frame (Customizations.position c) this)
    as (_ & -> & -> & -> & _).
  auto.
Qed.

Lemma updateThemeSettings_theme (integ : Integration) (newConfig : @RemoteConfig ThemeData)
    (this : @ChatBot ThemeData) :
  Options.themeStyle (options (updateThemeSettings integ newConfig this))
  = (if isWebsiteChoice integ
     then match themeData newConfig with
          | Some _ => "website"
          | None => "default"
          end
     else "default")
  /\ websiteTheme (updateThemeSettings integ newConfig this)
     = (if isWebsiteChoice integ then themeData newConfig else None)
  /\ currentFileId (updateThemeSettings integ newConfig this)
     = currentFileId this.
Proof.
  unfold updateThemeSettings.
  destruct (themeData newConfig), (isWebsiteChoice integ); repeat split.
Qed.

Lemma updateSettings_file (integ : Integration) (this : @ChatBot ThemeData) :
  currentFileId (updateSettings integ this) = currentFileId this.
Proof.
  unfold updateSettings. destruct (customizations integ) as [c|]; [|reflexivity].
  apply applyCustomizations_theme.
Qed.

(** Theme resolution: after [applyNewConfiguration] on a configuration
    with an [integration], also when it throws later, the theme style
    is [website] exactly when the theme choice is [website] and theme
    data is present, and [default] otherwise; the website theme held is
    that theme data, or none. *)
Theorem applyNewConfiguration_theme (this : @ChatBot ThemeData) (newConfig : @RemoteConfig ThemeData)
    (integ : Integration) :
  integration newConfig = Some integ ->
  let this' := fst (applyNewConfiguration this newConfig) in
  Options.themeStyle (options this')
  = (if isWebsiteChoice integ
     then match themeData newConfig with
          | Some _ => "website"
          | None => "default"
          end
     else "default")
  /\ websiteTheme this'
     = (if isWebsiteChoice integ then themeData newConfig else None).
Proof.
  intro H. cbv zeta. unfold applyNewConfiguration. rewrite H.
  destruct (updateThemeSettings_theme integ newConfig
              (updateSettings integ (setSdkConfig (Some newConfig) this)))
    as (T & W & _).
  unfold updateSelectedWebsite.
  destruct (selectedWebsite newConfig) as [site|];
    [|destruct (availableWebsites newConfig) as [[|firstSite rest]|]];
    cbn [fst]; split; assumption.
Qed.

(** Content selection: [applyNewConfiguration] uses the selected
    website when there is one and otherwise the first available one,
    taking its id as the current file, enabling the input and clearing
    the chat history; with an empty list it shows the no-websites
    message, disables the input and keeps the current file. *)
Theorem applyNewConfiguration_selects (this : @ChatBot ThemeData) (newConfig : @RemoteConfig ThemeData)
    (integ : Integration) :
  integration newConfig = Some integ ->
  let result := applyNewConfiguration this newConfig in
  let chosen :=
    match selectedWebsite newConfig with
    | Some site => Some site
    | None =>
        match availableWebsites newConfig with
        | Some (firstSite :: _) => Some firstSite
        | _ => None
        end
    end in
  match chosen with
  | Some site =>
      snd result = None
      /\ currentFileId (fst result) = Website.id site
      /\ Widget.inputDisabled (widget (fst result)) = false
      /\ Widget.sendDisabled (widget (fst result)) = false
      /\ chatHistory (fst result) = []
  | None =>
      availableWebsites newConfig = Some [] ->
      snd result = None
      /\ currentFileId (fst result) = currentFileId this
      /\ Widget.messages (widget (fst result)) = Widget.NoWebsites
      /\ Widget.inputDisabled (widget (fst result)) = true
      /\ Widget.sendDisabled (widget (fst result)) = true
  end.
Proof.
  intro H. cbv zeta. unfold applyNewConfiguration. rewrite H.
  unfold updateSelectedWebsite.
  destruct (selectedWebsite newConfig) as [site|].
  - cbn [fst snd]. repeat split.
  - destruct (availableWebsites newConfig) as [[|firstSite rest]|].
    + intros _. cbn [fst snd]. repeat split.
      destruct (updateThemeSettings_theme integ newConfig
                  (updateSettings integ (setSdkConfig (Some newConfig) this)))
        as (_ & _ & F).
      change (currentFileId (updateThemeSettings integ newConfig
                (updateSettings integ (setSdkConfig (Some newConfig) this)))
              = currentFileId this).
      rewrite F, updateSettings_file. reflexivity.
    + cbn [fst snd]. repeat split.
    + discriminate.
Qed.

Lemma truthy_or_old (v : option string) (old : string) (chosen : string) :
  chosen = match v with
           | Some p =>
               if negb (String.eqb p EmptyString) && negb (String.eqb p old)
               then p else old
           | None => old
           end ->
  chosen = orElse v old.
Proof.
  intros ->. destruct v as [p|]; [|reflexivity]. cbn [orElse].
  destruct (String.eqb p EmptyString); [reflexivity|]. cbn [negb andb].
  destruct (String.eqb p old) eqn:E; [|reflexivity].
  apply String.eqb_eq in E. auto.
Qed.

Lemma updatePosition_value (v : option string) (this : @ChatBot ThemeData) :
  Options.position (options (updatePosition v this))
  = orElse v (Options.position (options this)).
Proof.
  apply truthy_or_old. unfold updatePosition. split_matches; reflexivity.
Qed.

Lemma updateTitle_value (v : option string) (this : @ChatBot ThemeData) :
  Options.title (options (updateTitle v this))
  = orElse v (Options.title (options this)).
Proof.
  apply truthy_or_old. unfold updateTitle. split_matches; reflexivity.
Qed.

Lemma updatePlaceholder_value (v : option string) (this : @ChatBot ThemeData) :
  Options.placeholder (options (updatePlaceholder v this))
  = orElse v (Options.placeholder (options this)).
Proof.
  apply truthy_or_old. unfold updatePlaceholder.
  destruct v as [p|]; [|reflexivity].
  destruct (negb (String.eqb p EmptyString)
            && negb (String.eqb p (Options.placeholder (options this))));
    [|reflexivity].
  cbv zeta. cbn [widget setOptions].
  destruct (negb (Widget.inputDisabled (widget this))); reflexivity.
Qed.

(** Customizations: each of position, title and placeholder that the
    configuration gives (non-empty) becomes the option, and an absent
    one leaves the option as it was; the theme style is not touched,
    and the placeholder shown by a disabled input is not replaced. *)
Theorem applyCustomizations_options (c : Customizations.t)
    (this : @ChatBot ThemeData) :
  let this' := applyCustomizations c this in
  Options.position (options this')
  = orElse (Customizations.position c) (Options.position (options this))
  /\ Options.title (options this')
     = orElse (Customizations.title c) (Options.title (options this))
  /\ Options.placeholder (options this')
     = orElse (Customizations.placeholder c) (Options.placeholder (options this))
  /\ Options.themeStyle (options this') = Options.themeStyle (options this)
  /\ Widget.inputDisabled (widget this') = Widget.inputDisabled (widget this)
  /\ (Widget.inputDisabled (widget this) = true ->
      Widget.inputPlaceholder (widget this')
      = Widget.inputPlaceholder (widget this)).
Proof.
  cbv zeta. unfold applyCustomizations.
  set (b1 := updatePosition (Customizations.position c) this).
  set (b2 := updateTitle (Customizations.title c) b1).
  destruct (updatePosition_frame (Customizations.position c) this)
    as (_ & _ & _ & _ & T1 & P1 & S1 & D1 & H1 & _).
  destruct (updateTitle_frame (Customizations.title c) b1)
    as (_ & _ & _ & _ & O2 & P2 & S2 & D2 & H2 & _).
  destruct (updatePlaceholder_frame (Customizations.placeholder c) b2)
    as (_ & _ & _ & _ & O3 & T3 & S3 & D3 & _ & _ & H3).
  fold b1 in T1, P1, S1, D1, H1. fold b2 in O2, P2, S2, D2, H2.
  repeat split.
  - rewrite O3, O2. apply updatePosition_value.
  - rewrite T3. unfold b2. rewrite updateTitle_value. fold b1. rewrite T1.
    reflexivity.
  - rewrite updatePlaceholder_value, P2, P1. reflexivity.
  - rewrite S3, S2, S1. reflexivity.
  - rewrite D3, D2, D1. reflexivity.
  - intro D. rewrite H3 by (rewrite D2, D1; exact D). rewrite H2, H1.
    reflexivity.
Qed.

(** When [applyNewConfiguration] completes, the style sheet holds the
    palette of the theme settings it has just stored. *)
Theorem applied_styles_are_current (this : @ChatBot ThemeData)
    (newConfig : @RemoteConfig ThemeData) :
  snd (applyNewConfiguration this newConfig) = None ->
  styleSheet (fst (applyNewConfiguration this newConfig))
  = cssVariables (themeColorsOf (fst (applyNewConfiguration this newConfig))).
Proof.
  unfold applyNewConfiguration.
  destruct (integration newConfig) as [integ|]; [|discriminate].
  unfold updateSelectedWebsite.
  destruct (selectedWebsite newConfig) as [site|];
    [|destruct (availableWebsites newConfig) as [[|firstSite rest]|]];
    cbn [fst snd]; try discriminate; intros _; reflexivity.
Qed.

(** *** The initial load *)

Lemma loadSettings_widget (integ : Integration) (this : @ChatBot ThemeData) :
  widget (loadSettings integ this) = widget this.
Proof. unfold loadSettings. cbv zeta. split_matches; reflexivity. Qed.

Lemma loadSettings_position (integ : Integration) (c : Customizations.t)
    (this : @ChatBot ThemeData) :
  customizations integ = Some c ->
  Options.position (options (loadSettings integ this))
  = orElse (Customizations.position c) (Options.position (options this)).
Proof.
  intro H. unfold loadSettings. cbv zeta. rewrite H.
  destruct (Customizations.position c) as [p|]; cbn [falsy orElse];
    [destruct (String.eqb p EmptyString)|];
    destruct (falsy (Customizations.title c)),
             (falsy (Customizations.placeholder c));
    split_matches; reflexivity.
Qed.

Lemma loadThemeSettings_frame (integ : Integration)
    (config : @RemoteConfig ThemeData) (this : @ChatBot ThemeData) :
  widget (loadThemeSettings integ config this) = widget this
  /\ Options.position (options (loadThemeSettings integ config this))
     = Options.position (options this).
Proof.
  unfold loadThemeSettings.
  destruct (themeData config), (isWebsiteChoice integ); split; reflexivity.
Qed.

Lemma loadSelectedWebsite_frame (config : @RemoteConfig ThemeData)
    (this : @ChatBot ThemeData) :
  Widget.className (widget (loadSelectedWebsite config this))
  = Widget.className (widget this)
  /\ Widget.titleText (widget (loadSelectedWebsite config this))
     = Widget.titleText (widget this)
  /\ options (loadSelectedWebsite config this) = options this.
Proof.
  unfold loadSelectedWebsite.
  destruct (selectedWebsite config) as [site|];
    [|destruct (availableWebsites config) as [[|firstSite rest]|]];
    repeat split.
Qed.

(** A position that the initial load receives is stored in the options
    but not shown: the load leaves the widget's class and title as they
    are, and when a poll later applies the same customizations the
    position equals the stored one, so the class is not updated then
    either. *)
Theorem loaded_position_is_not_shown (this : @ChatBot ThemeData)
    (config : @RemoteConfig ThemeData) (integ : Integration)
    (c : Customizations.t) :
  integration config = Some integ ->
  customizations integ = Some c ->
  let loaded := loadSdkConfigurationResume this (Envelope true (Some config)) in
  Options.position (options loaded)
  = orElse (Customizations.position c) (Options.position (options this))
  /\ Widget.className (widget loaded) = Widget.className (widget this)
  /\ Widget.titleText (widget loaded) = Widget.titleText (widget this)
  /\ Widget.className (widget (applyCustomizations c loaded))
     = Widget.className (widget this).
Proof.
  intros Hi Hc. cbv zeta. cbn [loadSdkConfigurationResume]. rewrite Hi.
  set (b0 := setSdkConfig (Some config) this).
  set (b1 := loadSettings integ b0).
  set (b2 := loadThemeSettings integ config b1).
  set (b3 := loadSelectedWebsite config b2).
  destruct (loadSelectedWebsite_frame config b2) as (C3 & T3 & O3).
  destruct (loadThemeSettings_frame integ config b1) as (W2 & P2).
  pose proof (loadSettings_widget integ b0) as W1.
  pose proof (loadSettings_position integ c b0 Hc) as P1.
  fold b1 in W1, P1. fold b2 in W2, P2. fold b3 in C3, T3, O3.
  assert (P : Options.position (options b3)
              = orElse (Customizations.position c)
                       (Options.position (options this)))
    by (rewrite O3, P2, P1; reflexivity).
  assert (C : Widget.className (widget b3) = Widget.className (widget this))
    by (rewrite C3, W2, W1; reflexivity).
  repeat split; try assumption.
  - rewrite T3, W2, W1. reflexivity.
  - unfold applyCustomizations.
    destruct (updatePlaceholder_frame (Customizations.placeholder c)
                (updateTitle (Customizations.title c)
                   (updatePosition (Customizations.position c) b3)))
      as (_ & _ & _ & _ & _ & _ & _ & _ & -> & _).
    destruct (updateTitle_frame (Customizations.title c)
                (updatePosition (Customizations.position c) b3))
      as (_ & _ & _ & _ & _ & _ & _ & _ & _ & ->).
    rewrite <- C. f_equal. f_equal.
    unfold updatePosition. rewrite P.
    destruct (Customizations.position c) as [v|]; [|reflexivity].
    cbn [orElse]. destruct (String.eqb v EmptyString); [reflexivity|].
    rewrite String.eqb_refl. reflexivity.
Qed.

(** Any response but a success envelope with data ends the initial
    load with the no-websites message and a disabled input, and so
    does a configuration without [integration]. *)
Theorem load_failure_disables_input (this : @ChatBot ThemeData)
    (r : @Response ThemeData) :
  (forall config, r = Envelope true (Some config) -> integration config = None) ->
  let loaded := loadSdkConfigurationResume this r in
  Widget.messages (widget loaded) = Widget.NoWebsites
  /\ Widget.inputDisabled (widget loaded) = true
  /\ Widget.sendDisabled (widget loaded) = true
  /\ Widget.inputPlaceholder (widget loaded) = "No websites available for chat"
  /\ currentFileId loaded = currentFileId this.
Proof.
  intro H. cbv zeta. destruct r as [|[] [config|]]; try (repeat split).
  all: cbn [loadSdkConfigurationResume]; rewrite (H config eq_refl);
    reflexivity.
Qed.

(** *** The page over time *)

Lemma step_environment (p : @Page ThemeData) (e : Event) :
  visibilityListener (step p e) = visibilityListener p
  /\ focusListener (step p e) = focusListener p
  /\ incl (activeTimers (step p e)) (activeTimers p).
Proof.
  destruct e as [[]|r|h|hidden| | |r|]; cbn [step];
    try (destruct (stage p); repeat split; apply incl_refl);
    try (unfold startPoll;
         match goal with
         | |- context [if ?c then _ else _] => destruct c
         end; repeat split; apply incl_refl).
  - destruct (inFlight p); repeat split; apply incl_refl.
  - unfold destroy. repeat split. cbn [activeTimers].
    destruct (configRefreshInterval (bot p)) as [h|]; [|apply incl_refl].
    destruct (Nat.eqb h 0); [apply incl_refl|].
    intros t Ht. apply filter_In in Ht. tauto.
Qed.

Lemma run_environment (p : @Page ThemeData) (es : list Event) :
  visibilityListener (run p es) = visibilityListener p
  /\ focusListener (run p es) = focusListener p
  /\ incl (activeTimers (run p es)) (activeTimers p).
Proof.
  revert p. induction es as [|e es IH]; intro p.
  - repeat split. apply incl_refl.
  - unfold run. cbn [fold_left]. fold (run (step p e) es).
    destruct (IH (step p e)) as (V & F & T).
    destruct (step_environment p e) as (V1 & F1 & T1).
    rewrite V, F. repeat split; try assumption.
    intros t Ht. apply T1, T, Ht.
Qed.

(** No event removes the visibility or the focus listener, and no
    event adds a timer: whatever happens to the page, the listeners
    stay and the set of running timers can only shrink. *)
Theorem listeners_stay_timers_shrink (p : @Page ThemeData) (es : list Event) :
  visibilityListener (run p es) = visibilityListener p
  /\ focusListener (run p es) = focusListener p
  /\ (forall h, In h (activeTimers (run p es)) -> In h (activeTimers p)).
Proof. apply run_environment. Qed.

(** Once [destroy] has run, the timer it cleared never starts a poll
    again, whatever events follow, while a focus event starts one at
    any later time if the listener was installed. *)
Theorem destroyed_timer_stays_silent (p : @Page ThemeData) (h : nat)
    (es : list Event) :
  configRefreshInterval (bot p) = Some h -> h <> 0%nat ->
  let q := run (destroy p) es in
  triggersPoll q (TimerTick h) = false
  /\ triggersPoll q WindowFocus = focusListener p.
Proof.
  intros Hh Hn. cbv zeta.
  destruct (run_environment (destroy p) es) as (_ & F & T).
  split.
  - cbn [triggersPoll].
    destruct (existsb (Nat.eqb h) (activeTimers (run (destroy p) es))) eqn:E;
      [|reflexivity].
    apply existsb_exists in E. destruct E as (t & Ht & Et).
    apply Nat.eqb_eq in Et. subst t. apply T in Ht.
    unfold destroy in Ht. cbn [activeTimers] in Ht. rewrite Hh in Ht.
    apply Nat.eqb_neq in Hn. rewrite Hn in Ht.
    apply filter_In in Ht. destruct Ht as [_ Ht].
    rewrite Nat.eqb_refl in Ht. discriminate.
  - cbn [triggersPoll]. rewrite F. reflexivity.
Qed.

(** [destroy] can be called again without further effect. *)
Theorem destroy_idempotent (p : @Page ThemeData) :
  destroy (destroy p) = destroy p.
Proof.
  unfold destroy. cbn [bot activeTimers stage initRejected nextHandle
    visibilityListener focusListener inFlight configRefreshInterval setWidget
    widget].
  assert (W : Widget.remove (Widget.remove (widget (bot p)))
              = Widget.remove (widget (bot p))) by reflexivity.
  destruct (configRefreshInterval (bot p)) as [h|]; [|reflexivity].
  destruct (Nat.eqb h 0); [reflexivity|].
  f_equal. induction (activeTimers p) as [|t ts IH]; [reflexivity|].
  cbn [filter]. destruct (negb (Nat.eqb t h)) eqn:E; [|exact IH].
  cbn [filter]. rewrite E, IH. reflexivity.
Qed.

End Facts.

Import PlainTheme.

Lemma poll_without_change_is_silent_witness :
  refreshConfigurationResume (bot constructor) (Envelope false (Some configA))
  = bot constructor.
Proof.
  apply (poll_without_change_is_silent (bot constructor)
           (Envelope false (Some configA))).
  intros c H. discriminate H.
Defined.

Lemma applyNewConfiguration_theme_witness :
  let this' := fst (applyNewConfiguration (bot constructor) configA) in
  Options.themeStyle (options this') = "default" /\ websiteTheme this' = None.
Proof.
  apply (applyNewConfiguration_theme (bot constructor) configA
           defaultIntegration).
  reflexivity.
Defined.

Lemma applyNewConfiguration_selects_witness :
  let result := applyNewConfiguration (bot constructor) configA in
  snd result = None
  /\ currentFileId (fst result) = Some "a"
  /\ Widget.inputDisabled (widget (fst result)) = false
  /\ Widget.sendDisabled (widget (fst result)) = false
  /\ chatHistory (fst result) = [].
Proof.
  apply (applyNewConfiguration_selects (bot constructor) configA
           defaultIntegration).
  reflexivity.
Defined.

Lemma applied_styles_are_current_witness :
  styleSheet (fst (applyNewConfiguration (bot constructor) configA))
  = cssVariables
      (themeColorsOf (fst (applyNewConfiguration (bot constructor) configA))).
Proof.
  apply (applied_styles_are_current (bot constructor) configA). reflexivity.
Defined.

Lemma loaded_position_is_not_shown_witness :
  let loaded :=
    loadSdkConfigurationResume (bot constructor)
      (Envelope true (Some configLeft)) in
  Options.position (options loaded) = "bottom-left"
  /\ Widget.className (widget loaded) = "chatbot-widget bottom-right"
  /\ Widget.titleText (widget loaded) = "ChatFlow AI Assistant"
  /\ Widget.className (widget (applyCustomizations leftCustomizations loaded))
     = "chatbot-widget bottom-right".
Proof.
  apply (loaded_position_is_not_shown (bot constructor) configLeft
           leftIntegration leftCustomizations); reflexivity.
Defined.

Lemma load_failure_disables_input_witness :
  let loaded := loadSdkConfigurationResume (bot constructor) FetchFailed in
  Widget.messages (widget loaded) = Widget.NoWebsites
  /\ Widget.inputDisabled (widget loaded) = true
  /\ Widget.sendDisabled (widget loaded) = true
  /\ Widget.inputPlaceholder (widget loaded) = "No websites available for chat"
  /\ currentFileId loaded = currentFileId (bot constructor).
Proof.
  apply (load_failure_disables_input (bot constructor) FetchFailed).
  intros c H. discriminate H.
Defined.

Lemma destroyed_timer_stays_silent_witness :
  let q := run (destroy constructor)
             [WindowFocus; PollResponse (Envelope true (Some configA));
              TimerTick 1] in
  triggersPoll q (TimerTick 1) = false
  /\ triggersPoll q WindowFocus = focusListener constructor.
Proof.
  apply (destroyed_timer_stays_silent constructor 1%nat).
  - reflexivity.
  - discriminate.
Defined.

Lemma failed_validation_disables_input_witness :
  let q := step constructor (ValidationResult false) in
  Widget.messages (widget (bot q)) = Widget.InvalidApiKey
  /\ Widget.inputDisabled (widget (bot q)) = true
  /\ Widget.sendDisabled (widget (bot q)) = true
  /\ Widget.inputPlaceholder (widget (bot q))
     = "Invalid API key - chatbot disabled"
  /\ sdkConfig (bot q) = sdkConfig (bot constructor)
  /\ stage q = Settled
  /\ activeTimers q = activeTimers constructor
  /\ visibilityListener q = visibilityListener constructor
  /\ focusListener q = focusListener constructor.
Proof.
  apply (failed_validation_disables_input constructor). reflexivity.
Defined.

(** After a failed validation the timer is running; its next tick
    polls, and the response enables the input again. *)
Lemma polling_runs_after_failed_validation :
  let p := step constructor (ValidationResult false) in
  activeTimers p = [1%nat]
  /\ triggersPoll p (TimerTick 1) = true
  /\ Widget.inputDisabled
       (widget (bot (run p [TimerTick 1;
                            PollResponse (Envelope true (Some configA))])))
     = false.
Proof. vm_compute. repeat split. Qed.



Lemma applyNewConfiguration_throws_witness :
  snd (applyNewConfiguration (bot constructor) PlainTheme.configWithoutSites)
  = Some TypeError
  /\ (sdkConfig (bot constructor) = None ->
      hasConfigurationChanged (bot constructor) PlainTheme.configWithoutSites
      = true).
Proof.
  apply (applyNewConfiguration_throws (bot constructor)
           PlainTheme.configWithoutSites).
  right. split; reflexivity.
Defined.

End ConfigSyncFacts.
